(** * A shallow embedding of scenario/mocking.py

    [wrap_tool] intercepts the calls a charm makes to [ops.model._ModelBackend]
    and to [ops.pebble.Client] and answers them from a [Scene].  The Python
    values the calls carry are modelled by [pyval]; dicts are association lists
    kept in insertion order and compared with Python's [==]; raised exceptions
    are the constructors of [exn]; the in-place mutation of the scene is
    explicit state passing in the monad [M].

    The parsing and filtering helpers of scenario/scripts/snapshot.py follow,
    with its calls to [juju], the file system and the remote unit as
    parameters. *)

From Stdlib Require Import String Ascii List ZArith Bool Lia Permutation.
Import ListNotations.
Open Scope string_scope.
Set Warnings "-register-all".

(** ** Python values *)

Inductive pyval : Type :=
| PNone
| PBool (b : bool)
| PInt (z : Z)
| PStr (s : string)
| PList (l : list pyval)
| PTuple (l : list pyval)
| PDict (kv : list (pyval * pyval))
| PPath (p : string).       (* a pathlib.Path *)

(** Python's [==] ([True == 1], dict equality ignores insertion order). *)
Fixpoint py_eq (a b : pyval) {struct a} : bool :=
  match a, b with
  | PNone, PNone => true
  | PBool x, PBool y => Bool.eqb x y
  | PBool x, PInt y => Z.eqb (Z.b2z x) y
  | PInt x, PBool y => Z.eqb x (Z.b2z y)
  | PInt x, PInt y => Z.eqb x y
  | PStr x, PStr y => String.eqb x y
  | PPath x, PPath y => String.eqb x y
  | PList l1, PList l2 | PTuple l1, PTuple l2 =>
      (fix eq_list (l1 l2 : list pyval) : bool :=
         match l1, l2 with
         | [], [] => true
         | x :: xs, y :: ys => py_eq x y && eq_list xs ys
         | _, _ => false
         end) l1 l2
  | PDict d1, PDict d2 =>
      Nat.eqb (length d1) (length d2) &&
      (fix all_in (d : list (pyval * pyval)) : bool :=
         match d with
         | [] => true
         | (k, v) :: r =>
             match (fix find (e : list (pyval * pyval)) : option pyval :=
                      match e with
                      | [] => None
                      | (k2, v2) :: e' => if py_eq k k2 then Some v2 else find e'
                      end) d2 with
             | Some v2 => py_eq v v2
             | None => false
             end && all_in r
         end) d1
  | _, _ => false
  end.

(** [hash(v)] succeeds: lists and dicts are unhashable. *)
Fixpoint hashable (v : pyval) : bool :=
  match v with
  | PList _ | PDict _ => false
  | PTuple l =>
      (fix all_h (l : list pyval) : bool :=
         match l with [] => true | x :: r => hashable x && all_h r end) l
  | _ => true
  end.

(** [bool(v)]. *)
Definition truthy (v : pyval) : bool :=
  match v with
  | PNone => false
  | PBool b => b
  | PInt z => negb (Z.eqb z 0)
  | PStr s => negb (String.eqb s "")
  | PList l | PTuple l => match l with [] => false | _ => true end
  | PDict d => match d with [] => false | _ => true end
  | PPath _ => true
  end.

(** ** Exceptions *)

Inductive exn : Type :=
| StopIteration                       (* next() on an exhausted filter *)
| KeyError (k : pyval)
| IndexError
| TypeError
| AttributeError
| ValueError
| NameError (name : string)
| RuntimeError (msg : string)
| NotImplementedError (msg : string)
| FileNotFoundError (what : string)
| ExecError (command : list pyval) (exit_code : Z)   (* pebble.ExecError *)
| StateError (action namespace tool_name : string) (cause : exn)
| QuestionNotImplementedError (what : list string).

Inductive result (A : Type) : Type :=
| Ok (a : A)
| Err (e : exn).
Arguments Ok {A} a.
Arguments Err {A} e.

(** ** Dicts: association lists in insertion order *)

Fixpoint dict_lookup (d : list (pyval * pyval)) (k : pyval) : option pyval :=
  match d with
  | [] => None
  | (k', v) :: r => if py_eq k k' then Some v else dict_lookup r k
  end.

(** [d[k] = v]: an existing key keeps its slot, a new key goes last. *)
Fixpoint dict_set (d : list (pyval * pyval)) (k v : pyval) : list (pyval * pyval) :=
  match d with
  | [] => [(k, v)]
  | (k', v') :: r => if py_eq k k' then (k', v) :: r else (k', v') :: dict_set r k v
  end.

(** [d[k]] on a dict. *)
Definition dict_getitem (d : list (pyval * pyval)) (k : pyval) : result pyval :=
  if hashable k then
    match dict_lookup d k with Some v => Ok v | None => Err (KeyError k) end
  else Err TypeError.

(** [d.get(k)] on a dict. *)
Definition dict_get (d : list (pyval * pyval)) (k : pyval) : result pyval :=
  if hashable k then
    match dict_lookup d k with Some v => Ok v | None => Ok PNone end
  else Err TypeError.

(** [pos.get(k)] on any value: only dicts have [.get]. *)
Definition py_get (pos k : pyval) : result pyval :=
  match pos with PDict d => dict_get d k | _ => Err AttributeError end.

(** [pos[k]] for the containers of this model. *)
Definition py_getitem (pos k : pyval) : result pyval :=
  match pos with
  | PDict d => dict_getitem d k
  | PList l | PTuple l =>
      match k with
      | PInt _ | PBool _ =>
          let i := match k with PInt z => z | PBool b => Z.b2z b | _ => 0%Z end in
          let n := Z.of_nat (length l) in
          let j := if (i <? 0)%Z then (i + n)%Z else i in
          if ((j <? 0) || (n <=? j))%Z then Err IndexError
          else match nth_error l (Z.to_nat j) with Some v => Ok v | None => Err IndexError end
      | _ => Err TypeError
      end
  | _ => Err TypeError
  end.

(** [needle in s] for strings. *)
Fixpoint is_substring (needle s : string) : bool :=
  String.prefix needle s ||
  match s with EmptyString => false | String _ s' => is_substring needle s' end.

(** [x in c]. *)
Definition py_contains (c x : pyval) : result bool :=
  match c with
  | PDict d => if hashable x then Ok (match dict_lookup d x with Some _ => true | None => false end)
               else Err TypeError
  | PList l | PTuple l => Ok (List.existsb (fun y => py_eq x y) l)
  | PStr s => match x with PStr n => Ok (is_substring n s) | _ => Err TypeError end
  | _ => Err TypeError
  end.

(** [tuple(v)]. *)
Definition py_tuple (v : pyval) : result (list pyval) :=
  match v with
  | PList l | PTuple l => Ok l
  | PStr s => Ok (List.map (fun c => PStr (String c EmptyString)) (list_ascii_of_string s))
  | PDict d => Ok (List.map fst d)
  | _ => Err TypeError
  end.

(** [a, b = v] *)
Definition unpack2 (v : pyval) : result (pyval * pyval) :=
  match py_tuple v with
  | Ok [a; b] => Ok (a, b)
  | Ok _ => Err ValueError
  | Err e => Err e
  end.

(** list.remove(x): drop the first element equal to [x]. *)
Fixpoint list_remove (x : pyval) (l : list pyval) : list pyval :=
  match l with
  | [] => []
  | y :: r => if py_eq x y then r else y :: list_remove x r
  end.

(** ** Strings *)

(** [s.split(sep)] for a one-character separator. *)
Fixpoint py_split (sep : ascii) (s : string) : list string :=
  match s with
  | EmptyString => [""]
  | String c s' =>
      let r := py_split sep s' in
      if Ascii.eqb c sep then "" :: r
      else match r with
           | h :: t => String c h :: t
           | [] => [String c EmptyString]
           end
  end.

(** [l[-1]] and [l[-2]]. *)
Fixpoint last_opt {A} (l : list A) : option A :=
  match l with
  | [] => None
  | [x] => Some x
  | _ :: r => last_opt r
  end.
Fixpoint second_last_opt {A} (l : list A) : option A :=
  match l with
  | [] | [_] => None
  | [x; _] => Some x
  | _ :: r => second_last_opt r
  end.

(** [str(z)] for an int. *)
Fixpoint z_digits (fuel : nat) (z : Z) (acc : string) : string :=
  match fuel with
  | O => acc
  | S f =>
      let acc' := String (ascii_of_nat (48 + Z.to_nat (z mod 10))) acc in
      if (z <? 10)%Z then acc' else z_digits f (z / 10) acc'
  end.

Definition str_of_Z (z : Z) : string :=
  let a := Z.abs z in
  let s := z_digits (S (Z.to_nat (Z.log2 a))) a "" in
  if (z <? 0)%Z then "-" ++ s else s.

(** [int(s)] for a str: surrounding whitespace, an optional sign and
    decimal digits with single underscores between them.  A character is
    the code point U+0000 to U+00FF of its byte.  [int()] first turns the
    non-ASCII whitespace (U+0085, U+00A0) into spaces, then strips the ASCII
    whitespace of [Py_ISSPACE]: space and \t \n \v \f \r.  The separators
    \x1c to \x1f, whitespace to [str.isspace], are not stripped:
    [int("\x1c5")] raises ValueError. *)
Definition is_space (c : ascii) : bool :=
  let n := nat_of_ascii c in
  Nat.eqb n 32 || (Nat.leb 9 n && Nat.leb n 13) || Nat.eqb n 133 || Nat.eqb n 160.

Definition digit_value (c : ascii) : option Z :=
  let n := nat_of_ascii c in
  if Nat.leb 48 n && Nat.leb n 57 then Some (Z.of_nat (n - 48)) else None.

Fixpoint parse_digits (l : list ascii) (acc : Z) (after_digit : bool) : option Z :=
  match l with
  | [] => if after_digit then Some acc else None
  | c :: r =>
      match digit_value c with
      | Some d => parse_digits r (acc * 10 + d)%Z true
      | None => if Ascii.eqb c "_"%char && after_digit then parse_digits r acc false else None
      end
  end.

Fixpoint drop_spaces (l : list ascii) : list ascii :=
  match l with c :: r => if is_space c then drop_spaces r else l | [] => [] end.

Definition py_int_of_str (s : string) : result Z :=
  let l := rev (drop_spaces (rev (drop_spaces (list_ascii_of_string s)))) in
  let r := match l with
           | "-"%char :: t => option_map Z.opp (parse_digits t 0 false)
           | "+"%char :: t => parse_digits t 0 false
           | t => parse_digits t 0 false
           end in
  match r with Some z => Ok z | None => Err ValueError end.

(** [repr(s)] for a str: quoted with ['] unless [s] holds ['] and no
    double quote; backslash, the quote and the characters [str.isprintable]
    rejects (U+0000 to U+001F, U+007F to U+00A0, U+00AD) escaped. *)
Definition hex_digit (n : nat) : ascii :=
  ascii_of_nat (if Nat.ltb n 10 then 48 + n else 87 + n).

Definition repr_char (q c : ascii) : string :=
  let n := nat_of_ascii c in
  if Nat.eqb n 92 then String c (String c EmptyString)
  else if Ascii.eqb c q then String (ascii_of_nat 92) (String c EmptyString)
  else if Nat.eqb n 9 then "\t"
  else if Nat.eqb n 10 then "\n"
  else if Nat.eqb n 13 then "\r"
  else if Nat.ltb n 32 || (Nat.leb 127 n && Nat.leb n 160) || Nat.eqb n 173 then
    "\x" ++ String (hex_digit (n / 16)) (String (hex_digit (n mod 16)) EmptyString)
  else String c EmptyString.

Definition py_repr_str (s : string) : string :=
  let l := list_ascii_of_string s in
  let dq := ascii_of_nat 34 in
  let q := if existsb (fun c => Ascii.eqb c "'"%char) l && negb (existsb (fun c => Ascii.eqb c dq) l)
           then dq else "'"%char in
  String q (fold_right append (String q EmptyString) (map (repr_char q) l)).

(** [repr(v)], which is also [str(v)] for the containers. *)
Fixpoint py_repr (v : pyval) : string :=
  match v with
  | PNone => "None"
  | PBool true => "True"
  | PBool false => "False"
  | PInt z => str_of_Z z
  | PStr s => py_repr_str s
  | PPath p => "PosixPath(" ++ py_repr_str p ++ ")"
  | PList l =>
      "[" ++ (fix go (l : list pyval) : string :=
                match l with
                | [] => ""
                | [x] => py_repr x
                | x :: r => py_repr x ++ ", " ++ go r
                end) l ++ "]"
  | PTuple [x] => "(" ++ py_repr x ++ ",)"
  | PTuple l =>
      "(" ++ (fix go (l : list pyval) : string :=
                match l with
                | [] => ""
                | [x] => py_repr x
                | x :: r => py_repr x ++ ", " ++ go r
                end) l ++ ")"
  | PDict d =>
      "{" ++ (fix go (d : list (pyval * pyval)) : string :=
                match d with
                | [] => ""
                | [(k, x)] => py_repr k ++ ": " ++ py_repr x
                | (k, x) :: r => py_repr k ++ ": " ++ py_repr x ++ ", " ++ go r
                end) d ++ "}"
  end.

(** ** The scene (scenario.structs, as [wrap_tool] reads it) *)

Record RelationMeta := {
  relation_id : Z;
  remote_app_name : string;
  remote_unit_ids : list Z;
}.

Record Relation := {
  meta : RelationMeta;
  local_app_data : list (pyval * pyval);
  remote_app_data : list (pyval * pyval);
  local_unit_data : list (pyval * pyval);
  remote_units_data : list (pyval * pyval);   (* unit id -> databag *)
}.

Record ExecOutput := {
  return_code : Z;
  stdout : string;
  stderr : string;
}.

Record Container := {
  name : string;
  filesystem : pyval;                          (* nested dicts, Paths at leaves *)
  exec_mock : list (pyval * ExecOutput);       (* command tuple -> canned output *)
  can_connect : bool;
  layers : list pyval;
}.

(** Modelled from the spec: [Network.hook_tool_output_fmt] (scenario.structs,
    not under src/) is "its formatted representation"; [net_output] is the
    value that method returns. *)
Record Network := {
  net_name : string;
  net_output : pyval;
}.

Record Status := {
  st_app : pyval;          (* (status, message) *)
  st_unit : pyval;
  app_version : pyval;
}.

Record State := {
  leader : bool;
  status : Status;
  juju_log : list pyval;
  relations : list Relation;
  containers : list Container;
  networks : list Network;
  config : list (pyval * pyval);
}.

Record Scene := {
  state : State;
  unit_name : string;      (* scene.meta.unit_name *)
  app_name : string;       (* scene.meta.app_name *)
}.

Record CharmSpec := {
  spec_config : list (pyval * pyval);   (* option name -> option dict *)
}.

(** The host filesystem the Paths in the container trees point to:
    regular files and their text. *)
Definition Disk := list (string * string).

Fixpoint disk_lookup (d : Disk) (p : string) : option string :=
  match d with
  | [] => None
  | (p', c) :: r => if String.eqb p p' then Some c else disk_lookup r p
  end.

Fixpoint disk_write (d : Disk) (p c : string) : Disk :=
  match d with
  | [] => [(p, c)]
  | (p', c') :: r => if String.eqb p p' then (p', c) :: r else (p', c') :: disk_write r p c
  end.

(** [tempfile.NamedTemporaryFile(delete=False)] opens a file under a name
    that is not in use yet. *)
Definition tmp_name (n : nat) : string := "/tmp/tmp" ++ str_of_Z (Z.of_nat n).

Fixpoint fresh_from (fuel n : nat) (d : Disk) : string :=
  match fuel with
  | O => tmp_name n
  | S f => match disk_lookup d (tmp_name n) with
           | None => tmp_name n
           | Some _ => fresh_from f (S n) d
           end
  end.

Definition named_temporary_file (d : Disk) : string * Disk :=
  let p := fresh_from (length d) 0 d in (p, disk_write d p "").

(** Text I/O on Linux: [Path.write_text] writes '\n' as os.linesep, which is
    '\n'; [Path.open()] reads in universal-newlines mode, where "\r\n" and
    a lone "\r" both read as "\n".  Encoding is the UTF-8 identity. *)
Definition write_text (contents : string) : string := contents.

Definition LF : ascii := ascii_of_nat 10.
Definition CR : ascii := ascii_of_nat 13.

Fixpoint universal_newlines (s : string) : string :=
  match s with
  | EmptyString => EmptyString
  | String c r =>
      if Ascii.eqb c CR then
        match r with
        | String c' r' => if Ascii.eqb c' LF then String LF (universal_newlines r')
                          else String LF (universal_newlines r)
        | EmptyString => String LF EmptyString
        end
      else String c (universal_newlines r)
  end.

(** What a simulated tool returns: a Python value, a [_MockExecProcess], or an
    open text file whose [read()] gives [text]. *)
Record MockExecProcess := {
  command : list pyval;
  change_id : Z;
  out : ExecOutput;
  waited : bool;
}.

Inductive ret : Type :=
| RVal (v : pyval)
| RProc (p : MockExecProcess)
| RFile (text : string).

(** The whole mutable world of one simulated run. *)
Record World := {
  scene : Scene;
  disk : Disk;
  next_change_id : Z;
}.

(** Modelled from the spec: [ExecOutput._run] (scenario.structs, not under
    src/) binds the canned result "to a fresh simulated change-id". *)
Definition exec_output_run (w : World) : Z * World :=
  (next_change_id w,
   {| scene := scene w; disk := disk w; next_change_id := (next_change_id w + 1)%Z |}).

(** ** _MockExecProcess *)

(** [from ops import pebble] sits under [if TYPE_CHECKING:], which is false
    when the module runs, so the name [pebble] is not bound in mocking.py. *)
Definition pebble_bound_at_runtime : bool := false.

(** [pebble.ExecError(list(self._command), exit_code, None, None)] *)
Definition pebble_ExecError (cmd : list pyval) (code : Z) : exn :=
  if pebble_bound_at_runtime then ExecError cmd code else NameError "pebble".

Definition wait (p : MockExecProcess) : MockExecProcess * result unit :=
  let p' := {| command := command p; change_id := change_id p; out := out p;
               waited := true |} in
  let exit_code := return_code (out p') in
  if negb (Z.eqb exit_code 0) then (p', Err (pebble_ExecError (command p') exit_code))
  else (p', Ok tt).

Definition wait_output (p : MockExecProcess) : MockExecProcess * result (string * string) :=
  let o := out p in
  let exit_code := return_code o in
  if negb (Z.eqb exit_code 0) then (p, Err (pebble_ExecError (command p) exit_code))
  else (p, Ok (stdout o, stderr o)).

(** ** The simulation monad: the world and wrap_tool's two local flags are
    threaded through; a raised exception keeps the mutations made so far. *)

Record Flags := {
  setter : bool;
  wrap_errors : bool;
}.

Definition M (A : Type) : Type := World -> Flags -> World * Flags * result A.

Definition mret {A} (a : A) : M A := fun w f => (w, f, Ok a).
Definition mraise {A} (e : exn) : M A := fun w f => (w, f, Err e).
Definition mbind {A B} (m : M A) (k : A -> M B) : M B :=
  fun w f => match m w f with
             | (w', f', Ok a) => k a w' f'
             | (w', f', Err e) => (w', f', Err e)
             end.

Notation "x <- m ;; k" := (mbind m (fun x => k))
  (at level 61, m at next level, right associativity).
Notation "' p <- m ;; k" := (mbind m (fun x => match x with p => k end))
  (at level 61, p pattern, m at next level, right associativity).

Definition lift {A} (r : result A) : M A :=
  fun w f => (w, f, r).
Definition get_world : M World := fun w f => (w, f, Ok w).
Definition put_world (w' : World) : M unit := fun _ f => (w', f, Ok tt).
Definition mark_setter : M unit :=
  fun w f => (w, {| setter := true; wrap_errors := wrap_errors f |}, Ok tt).
Definition no_wrap : M unit :=
  fun w f => (w, {| setter := setter f; wrap_errors := false |}, Ok tt).

(** ** Calls *)

(** [call_args[0]]: every wrapped tool is a method, so the first positional
    argument is the backend or the pebble client. *)
Inductive PySelf : Type :=
| BackendSelf
| ClientSelf (socket_path : string).

Record Call := {
  call_self : PySelf;
  call_args : list pyval;                (* call_args[1:] *)
  call_kwargs : list (string * pyval);
}.

Fixpoint kw_lookup (kw : list (string * pyval)) (k : string) : option pyval :=
  match kw with
  | [] => None
  | (k', v) :: r => if String.eqb k k' then Some v else kw_lookup r k
  end.

(** [call_kwargs.get(k)] *)
Definition kw_get (kw : list (string * pyval)) (k : string) : pyval :=
  match kw_lookup kw k with Some v => v | None => PNone end.

(** [next(filter(p, l))], with the position of the element found. *)
Fixpoint find_index {A} (p : A -> bool) (l : list A) : option (nat * A) :=
  match l with
  | [] => None
  | x :: r => if p x then Some (0, x)
              else match find_index p r with Some (i, y) => Some (S i, y) | None => None end
  end.

Fixpoint replace_nth {A} (i : nat) (x : A) (l : list A) : list A :=
  match l, i with
  | [], _ => []
  | _ :: r, O => x :: r
  | y :: r, S j => y :: replace_nth j x r
  end.

Definition nth_arg (args : list pyval) (i : nat) : result pyval :=
  match nth_error args i with Some v => Ok v | None => Err IndexError end.

Definition find_relation (rel_id : pyval) (rels : list Relation) : result (nat * Relation) :=
  match find_index (fun r => py_eq (PInt (relation_id (meta r))) rel_id) rels with
  | Some x => Ok x
  | None => Err StopIteration
  end.

(** ** World updates *)

Definition with_state (w : World) (st : State) : World :=
  {| scene := {| state := st; unit_name := unit_name (scene w);
                 app_name := app_name (scene w) |};
     disk := disk w; next_change_id := next_change_id w |}.

Definition with_status (st : State) (s : Status) : State :=
  {| leader := leader st; status := s; juju_log := juju_log st;
     relations := relations st; containers := containers st;
     networks := networks st; config := config st |}.

Definition with_juju_log (st : State) (l : list pyval) : State :=
  {| leader := leader st; status := status st; juju_log := l;
     relations := relations st; containers := containers st;
     networks := networks st; config := config st |}.

Definition with_relations (st : State) (rs : list Relation) : State :=
  {| leader := leader st; status := status st; juju_log := juju_log st;
     relations := rs; containers := containers st;
     networks := networks st; config := config st |}.

Definition with_containers (st : State) (cs : list Container) : State :=
  {| leader := leader st; status := status st; juju_log := juju_log st;
     relations := relations st; containers := cs;
     networks := networks st; config := config st |}.

Definition with_local_app_data (r : Relation) (d : list (pyval * pyval)) : Relation :=
  {| meta := meta r; local_app_data := d; remote_app_data := remote_app_data r;
     local_unit_data := local_unit_data r; remote_units_data := remote_units_data r |}.

Definition with_local_unit_data (r : Relation) (d : list (pyval * pyval)) : Relation :=
  {| meta := meta r; local_app_data := local_app_data r; remote_app_data := remote_app_data r;
     local_unit_data := d; remote_units_data := remote_units_data r |}.

Definition with_filesystem (c : Container) (fs : pyval) : Container :=
  {| name := name c; filesystem := fs; exec_mock := exec_mock c;
     can_connect := can_connect c; layers := layers c |}.

(** ** Pieces of the tools *)

(** [{key: value.get("default") for key, value in charm_spec.config.items()}] *)
Fixpoint config_defaults (items acc : list (pyval * pyval)) : result (list (pyval * pyval)) :=
  match items with
  | [] => Ok acc
  | (key, value) :: r =>
      match py_get value (PStr "default") with
      | Ok d => config_defaults r (dict_set acc key d)
      | Err e => Err e
      end
  end.

(** One pass of [for name in service_names:] over a list that the body
    shrinks with [service_names.remove(name)]: Python's list iterator walks
    by position [i] and stops once [i] reaches the current length.  The
    position grows by one per step and the list never grows, so
    [length service_names] steps are enough. *)
Fixpoint services_in_layer (fuel i : nat) (service_names : list pyval) (layer : pyval)
    (res : list pyval) : result (list pyval * list pyval) :=
  match fuel with
  | O => Ok (service_names, res)
  | S f =>
      match nth_error service_names i with
      | None => Ok (service_names, res)
      | Some nm =>
          match py_getitem layer (PStr "services") with
          | Err e => Err e
          | Ok svcs =>
              match py_contains svcs nm with
              | Err e => Err e
              | Ok false => services_in_layer f (S i) service_names layer res
              | Ok true =>
                  let service_names' := list_remove nm service_names in
                  match py_getitem layer (PStr "services") with
                  | Err e => Err e
                  | Ok svcs' =>
                      match py_getitem svcs' nm with
                      | Err e => Err e
                      | Ok d => services_in_layer f (S i) service_names' layer (res ++ [d])
                      end
                  end
              end
          end
      end
  end.

(** [for layer in container.layers: if not service_names: break; ...] *)
Fixpoint services_scan (ls : list pyval) (service_names res : list pyval) : result (list pyval) :=
  match ls with
  | [] => Ok res
  | layer :: r =>
      match service_names with
      | [] => Ok res
      | _ =>
          match services_in_layer (length service_names) 0 service_names layer res with
          | Ok (service_names', res') => services_scan r service_names' res'
          | Err e => Err e
          end
      end
  end.

(** pull: [for token in path_txt.split("/")[1:]: pos = pos.get(token);
    if not pos: raise FileNotFoundError(path_txt)] *)
Fixpoint pull_walk (pos : pyval) (tokens : list string) (path_txt : string) : result pyval :=
  match tokens with
  | [] => Ok pos
  | token :: r =>
      match py_get pos (PStr token) with
      | Err e => Err e
      | Ok p => if truthy p then pull_walk p r path_txt else Err (FileNotFoundError path_txt)
      end
  end.

(** [Path(pos)] *)
Definition path_of (pos : pyval) : result string :=
  match pos with PPath p => Ok p | PStr s => Ok s | _ => Err TypeError end.

(** push, after the loop: create the temporary file, write [contents] to it
    and bind it with [pos[tokens[-1]] = pth]. *)
Definition push_finish (tokens : list string) (contents : pyval) (pos : pyval) (dsk : Disk)
    : pyval * Disk * result unit :=
  let '(pth, dsk1) := named_temporary_file dsk in
  match contents with
  | PStr c =>
      let dsk2 := disk_write dsk1 pth (write_text c) in
      match last_opt tokens with
      | None => (pos, dsk2, Err IndexError)
      | Some t =>
          match pos with
          | PDict d => (PDict (dict_set d (PStr t) (PPath pth)), dsk2, Ok tt)
          | _ => (pos, dsk2, Err TypeError)
          end
      end
  | _ => (pos, dsk1, Err TypeError)
  end.

(** push: [for token in tokens[:-1]: nxt = pos.get(token); ...].  The dict
    [pos] is returned as the loop leaves it (also when it raises), so the
    caller sees the in-place mutations; [finish] runs on the innermost [pos]. *)
Fixpoint push_walk (pos : pyval) (tokens : list string) (path_txt : string)
    (make_dirs : option pyval) (dsk : Disk)
    (finish : pyval -> Disk -> pyval * Disk * result unit)
    : pyval * Disk * result unit :=
  match tokens with
  | [] => finish pos dsk
  | token :: r =>
      match py_get pos (PStr token) with
      | Err e => (pos, dsk, Err e)
      | Ok nxt =>
          if negb (truthy nxt) then
            match make_dirs with
            | None => (pos, dsk, Err (KeyError (PStr "make_dirs")))
            | Some md =>
                if truthy md then
                  let '(sub, dsk', res) := push_walk (PDict []) r path_txt make_dirs dsk finish in
                  (match pos with PDict d => PDict (dict_set d (PStr token) sub) | _ => pos end,
                   dsk', res)
                else (pos, dsk, Err (FileNotFoundError path_txt))
            end
          else
            let '(sub, dsk', res) := push_walk nxt r path_txt make_dirs dsk finish in
            (match pos with PDict d => PDict (dict_set d (PStr token) sub) | _ => pos end,
             dsk', res)
      end
  end.

(** ** wrap_tool *)

Definition sysinfo : pyval :=
  PDict [(PStr "result", PDict [(PStr "version", PStr "unknown")])].

(** The [_ModelBackend] branch.  [None] is the try block ending without a
    [return]. *)
Definition model_backend (tool_name : string) (charm_spec : option CharmSpec)
    (args : list pyval) (call_kwargs : list (string * pyval)) : M (option ret) :=
  w0 <- get_world;;
  let input_state := state (scene w0) in
  let this_unit_name := unit_name (scene w0) in
  let this_app_name := app_name (scene w0) in
  (* getter methods *)
  if String.eqb tool_name "relation_get" then
    match args with
    | [rel_id; obj_name; app] =>
        '(_, relation) <- lift (find_relation rel_id (relations input_state));;
        if truthy app && py_eq obj_name (PStr this_app_name) then
          mret (Some (RVal (PDict (local_app_data relation))))
        else if truthy app then mret (Some (RVal (PDict (remote_app_data relation))))
        else if py_eq obj_name (PStr this_unit_name) then
          mret (Some (RVal (PDict (local_unit_data relation))))
        else
          match obj_name with
          | PStr s =>
              let unit_id := match last_opt (py_split "/"%char s) with Some u => u | None => "" end in
              uid <- lift (py_int_of_str unit_id);;
              v <- lift (dict_getitem (remote_units_data relation) (PInt uid));;
              mret (Some (RVal v))
          | _ => mraise AttributeError
          end
    | _ => mraise ValueError
    end
  else if String.eqb tool_name "is_leader" then
    mret (Some (RVal (PBool (leader input_state))))
  else if String.eqb tool_name "status_get" then
    '(st, message) <- lift (unpack2 (if truthy (kw_get call_kwargs "app")
                                    then st_app (status input_state)
                                    else st_unit (status input_state)));;
    mret (Some (RVal (PDict [(PStr "status", st); (PStr "message", message)])))
  else if String.eqb tool_name "relation_ids" then
    mret (Some (RVal (PList (map (fun rel => PInt (relation_id (meta rel)))
                                 (relations input_state)))))
  else if String.eqb tool_name "relation_list" then
    rel_id <- lift (nth_arg args 0);;
    '(_, relation) <- lift (find_relation rel_id (relations input_state));;
    mret (Some (RVal (PTuple (map (fun u => PStr (remote_app_name (meta relation) ++ "/"
                                                  ++ str_of_Z u))
                                  (remote_unit_ids (meta relation))))))
  else if String.eqb tool_name "config_get" then
    state_config <-
      (match config input_state with
       | [] => match charm_spec with
               | None => mraise AttributeError
               | Some cs => lift (config_defaults (spec_config cs) [])
               end
       | c => mret c
       end);;
    match args with
    | key :: _ => v <- lift (dict_getitem state_config key);; mret (Some (RVal v))
    | [] => mret (Some (RVal (PDict state_config)))
    end
  else if String.eqb tool_name "network_get" then
    match args with
    | [nm; _] =>
        match find_index (fun r => py_eq (PStr (net_name r)) nm) (networks input_state) with
        | Some (_, network) => mret (Some (RVal (net_output network)))
        | None => mraise StopIteration
        end
    | _ => mraise ValueError
    end
  else if String.eqb tool_name "action_get" then mraise (NotImplementedError "action_get")
  else if String.eqb tool_name "relation_remote_app_name" then
    mraise (NotImplementedError "relation_remote_app_name")
  else if String.eqb tool_name "resource_get" then mraise (NotImplementedError "resource_get")
  else if String.eqb tool_name "storage_list" then mraise (NotImplementedError "storage_list")
  else if String.eqb tool_name "storage_get" then mraise (NotImplementedError "storage_get")
  else if String.eqb tool_name "planned_units" then mraise (NotImplementedError "planned_units")
  else
  _ <- mark_setter;;
  (* setter methods *)
  w <- get_world;;
  let st := state (scene w) in
  if String.eqb tool_name "application_version_set" then
    v <- lift (nth_arg args 0);;
    let s := status st in
    _ <- put_world (with_state w (with_status st
           {| st_app := st_app s; st_unit := st_unit s; app_version := v |}));;
    mret (Some (RVal PNone))
  else if String.eqb tool_name "status_set" then
    let s := status st in
    let s' := if truthy (kw_get call_kwargs "is_app")
              then {| st_app := PTuple args; st_unit := st_unit s; app_version := app_version s |}
              else {| st_app := st_app s; st_unit := PTuple args; app_version := app_version s |} in
    _ <- put_world (with_state w (with_status st s'));;
    mret (Some (RVal PNone))
  else if String.eqb tool_name "juju_log" then
    _ <- put_world (with_state w (with_juju_log st (juju_log st ++ [PTuple args])));;
    mret (Some (RVal PNone))
  else if String.eqb tool_name "relation_set" then
    match args with
    | [rel_id; key; value; app] =>
        '(i, relation) <- lift (find_relation rel_id (relations st));;
        if truthy app then
          if negb (leader st) then mraise (RuntimeError "needs leadership to set app data")
          else if hashable key then
            _ <- put_world (with_state w (with_relations st (replace_nth i
                   (with_local_app_data relation (dict_set (local_app_data relation) key value))
                   (relations st))));;
            mret (Some (RVal PNone))
          else mraise TypeError
        else if hashable key then
          _ <- put_world (with_state w (with_relations st (replace_nth i
                 (with_local_unit_data relation (dict_set (local_unit_data relation) key value))
                 (relations st))));;
          mret (Some (RVal PNone))
        else mraise TypeError
    | _ => mraise ValueError
    end
  else if String.eqb tool_name "action_set" then mraise (NotImplementedError "action_set")
  else if String.eqb tool_name "action_fail" then mraise (NotImplementedError "action_fail")
  else if String.eqb tool_name "action_log" then mraise (NotImplementedError "action_log")
  else if String.eqb tool_name "storage_add" then mraise (NotImplementedError "storage_add")
  else if String.eqb tool_name "secret_get" then mraise (NotImplementedError "secret_get")
  else if String.eqb tool_name "secret_set" then mraise (NotImplementedError "secret_set")
  else if String.eqb tool_name "secret_grant" then mraise (NotImplementedError "secret_grant")
  else if String.eqb tool_name "secret_remove" then mraise (NotImplementedError "secret_remove")
  else mret None.

(** The [Client] (pebble) branch. *)
Definition pebble_client (tool_name : string) (client : PySelf)
    (args : list pyval) (call_kwargs : list (string * pyval)) : M (option ret) :=
  w0 <- get_world;;
  let input_state := state (scene w0) in
  match client with
  | BackendSelf => mraise AttributeError          (* no socket_path *)
  | ClientSelf socket_path =>
  match second_last_opt (py_split "/"%char socket_path) with
  | None => mraise IndexError
  | Some container_name =>
  match find_index (fun x => String.eqb (name x) container_name) (containers input_state) with
  | None => mraise (RuntimeError ("container with name=" ++ py_repr_str container_name
                                  ++ " not found. Did you forget a ContainerSpec, or is the socket path "
                                  ++ py_repr_str socket_path ++ " wrong?"))
  | Some (ci, container) =>
    if String.eqb tool_name "_request" then
      if py_eq (PTuple args) (PTuple [PStr "GET"; PStr "/v1/system-info"]) then
        if can_connect container then mret (Some (RVal sysinfo))
        else
          _ <- no_wrap;;
          mraise (FileNotFoundError "")
      else if py_eq (PTuple (firstn 2 args)) (PTuple [PStr "GET"; PStr "/v1/services"]) then
        query <- lift (nth_arg args 2);;
        names <- lift (py_getitem query (PStr "names"));;
        match names with
        | PStr csv =>
            let service_names := map PStr (py_split ","%char csv) in
            result <- lift (services_scan (layers container) service_names []);;
            mret (Some (RVal (PDict [(PStr "result", PList result)])))
        | _ => mraise AttributeError
        end
      else mraise (NotImplementedError ("_request: " ++ py_repr (PTuple args)))
    else if String.eqb tool_name "exec" then
      a0 <- lift (nth_arg args 0);;
      cmd <- lift (py_tuple a0);;
      if hashable (PTuple cmd) then
        match find_index (fun kv => py_eq (fst kv) (PTuple cmd)) (exec_mock container) with
        | None => mraise (RuntimeError ("mock for cmd " ++ py_repr (PTuple cmd) ++ " not found."))
        | Some (_, (_, o)) =>
            w <- get_world;;
            let '(cid, w') := exec_output_run w in
            _ <- put_world w';;
            mret (Some (RProc {| command := cmd; change_id := cid; out := o; waited := false |}))
        end
      else mraise TypeError
    else if String.eqb tool_name "pull" then
      _ <- no_wrap;;
      path <- lift (nth_arg args 0);;
      match path with
      | PStr path_txt =>
          pos <- lift (pull_walk (filesystem container) (skipn 1 (py_split "/"%char path_txt))
                                 path_txt);;
          local_path <- lift (path_of pos);;
          w <- get_world;;
          match disk_lookup (disk w) local_path with
          | Some c => mret (Some (RFile (universal_newlines c)))
          | None => mraise (FileNotFoundError local_path)
          end
      | _ => mraise AttributeError
      end
    else if String.eqb tool_name "push" then
      _ <- mark_setter;;
      _ <- no_wrap;;
      match args with
      | [PStr path_txt; contents] =>
          let tokens := skipn 1 (py_split "/"%char path_txt) in
          w <- get_world;;
          let '(fs', dsk', r) :=
            push_walk (filesystem container) (removelast tokens) path_txt
                      (kw_lookup call_kwargs "make_dirs") (disk w)
                      (push_finish tokens contents) in
          let st := state (scene w) in
          _ <- put_world
                 {| scene := scene (with_state w (with_containers st
                                (replace_nth ci (with_filesystem container fs') (containers st))));
                    disk := dsk'; next_change_id := next_change_id w |};;
          _ <- lift r;;
          mret (Some (RVal PNone))
      | [_; _] => mraise AttributeError
      | _ => mraise ValueError
      end
    else mret None
  end
  end
  end.

Definition init_flags : Flags := {| setter := false; wrap_errors := true |}.

Definition simulate (namespace tool_name : string) (charm_spec : option CharmSpec)
    (c : Call) : M (option ret) :=
  if String.eqb namespace "_ModelBackend" then
    model_backend tool_name charm_spec (call_args c) (call_kwargs c)
  else if String.eqb namespace "Client" then
    pebble_client tool_name (call_self c) (call_args c) (call_kwargs c)
  else mraise (QuestionNotImplementedError [namespace]).

(** [wrap_tool]: the try block, its [except Exception as e] handler and the
    final [raise QuestionNotImplementedError(...)] after it. *)
Definition wrap_tool (namespace tool_name : string) (charm_spec : option CharmSpec)
    (c : Call) (w : World) : World * result ret :=
  match simulate namespace tool_name charm_spec c w init_flags with
  | (w', _, Ok (Some v)) => (w', Ok v)
  | (w', _, Ok None) => (w', Err (QuestionNotImplementedError [namespace; tool_name]))
  | (w', fl, Err e) =>
      if wrap_errors fl then
        (w', Err (StateError (if setter fl then "setting" else "getting") namespace tool_name e))
      else (w', Err e)
  end.

(** The container a pebble client with socket path [sp] is resolved to:
    [socket_path.split("/")[-2]] looked up by name. *)
Definition client_container (w : World) (sp : string) : option (nat * Container) :=
  match second_last_opt (py_split "/"%char sp) with
  | Some container_name =>
      find_index (fun x => String.eqb (name x) container_name) (containers (state (scene w)))
  | None => None
  end.

(** Option declarations of a charm's config schema: each option name with
    the dict declaring it; and the default each declaration gives, with
    [value.get("default")] returning None when there is none. *)
Definition option_specs (opts : list (string * list (pyval * pyval))) : list (pyval * pyval) :=
  map (fun '(n, o) => (PStr n, PDict o)) opts.

Definition declared_default (o : list (pyval * pyval)) : pyval :=
  match dict_lookup o (PStr "default") with Some v => v | None => PNone end.

Definition defaults_map (opts : list (string * list (pyval * pyval))) : list (pyval * pyval) :=
  map (fun '(n, o) => (PStr n, declared_default o)) opts.

(** A service layer as pebble declares it: [{"services": {name: definition}}]. *)
Definition service_layer (svcs : list (string * pyval)) : pyval :=
  PDict [(PStr "services", PDict (map (fun '(n, d) => (PStr n, d)) svcs))].

(** The service listing as the spec words it (not the code): the layers in
    order; each outstanding requested name is taken by the first layer
    declaring it, which contributes its definition; the other names stay
    outstanding for the next layers. *)
Definition declares (svcs : list (string * pyval)) (n : string) : bool :=
  existsb (fun nd => String.eqb n (fst nd)) svcs.

Definition definition_of (svcs : list (string * pyval)) (n : string) : pyval :=
  match find (fun nd => String.eqb n (fst nd)) svcs with Some (_, d) => d | None => PNone end.

Fixpoint services_spec (ls : list (list (string * pyval))) (outstanding : list string)
    : list pyval :=
  match ls with
  | [] => []
  | svcs :: r =>
      map (definition_of svcs) (filter (declares svcs) outstanding)
      ++ services_spec r (filter (fun n => negb (declares svcs n)) outstanding)
  end.


(** Some intermediate segment is missing: the segments before it are bound
    to directories and it is bound to nothing in the last of them. *)
Fixpoint missing_intermediate (pos : pyval) (tokens : list string) : bool :=
  match pos, tokens with
  | PDict d, t :: r =>
      match dict_lookup d (PStr t) with
      | None => true
      | Some (PDict d') => missing_intermediate (PDict d') r
      | Some _ => false
      end
  | _, _ => false
  end.




(** ** Sample scenes *)

Definition sample_container (fs : pyval) (ls : list pyval)
    (mocks : list (pyval * ExecOutput)) : Container :=
  {| name := "workload"; filesystem := fs; exec_mock := mocks; can_connect := true;
     layers := ls |}.

Definition sample_relation : Relation :=
  {| meta := {| relation_id := 1; remote_app_name := "remote"; remote_unit_ids := [0%Z] |};
     local_app_data := []; remote_app_data := []; local_unit_data := [];
     remote_units_data := [(PInt 0, PDict [])] |}.

Definition sample_world (is_leader : bool) (cfg : list (pyval * pyval))
    (cs : list Container) : World :=
  {| scene :=
       {| state :=
            {| leader := is_leader;
               status := {| st_app := PTuple [PStr "unknown"; PStr ""];
                            st_unit := PTuple [PStr "unknown"; PStr ""];
                            app_version := PStr "" |};
               juju_log := []; relations := [sample_relation]; containers := cs;
               networks := []; config := cfg |};
          unit_name := "local/0"; app_name := "local" |};
     disk := []; next_change_id := 1 |}.

Definition sample_client : PySelf := ClientSelf "/charm/containers/workload/pebble.socket".

(** Canned exec outputs: one failing command, one succeeding. *)
Definition failing_mock : list (pyval * ExecOutput) :=
  [(PTuple [PStr "false"], {| return_code := 1; stdout := ""; stderr := "boom" |});
   (PTuple [PStr "true"], {| return_code := 0; stdout := "out"; stderr := "err" |})].

(** A step of the simulation that leaves the world as it found it (the
    flags may change). *)
Definition keeps_world {A} (m : M A) : Prop := forall w f, fst (fst (m w f)) = w.

(** The [_ModelBackend] tools that only read the scene: the getters, and the
    getters that raise [NotImplementedError]. *)
Definition backend_getters : list string :=
  ["relation_get"; "is_leader"; "status_get"; "relation_ids"; "relation_list";
   "config_get"; "network_get"; "action_get"; "relation_remote_app_name";
   "resource_get"; "storage_list"; "storage_get"; "planned_units"].

(** The [_ModelBackend] setters that raise [NotImplementedError]. *)
Definition backend_unimplemented_setters : list string :=
  ["action_set"; "action_fail"; "action_log"; "storage_add"; "secret_get";
   "secret_set"; "secret_grant"; "secret_remove"].

(** A decimal digit, and a value that is a string. *)
Definition is_digit (c : ascii) : Prop := digit_value c <> None.
Definition is_pstr (v : pyval) : Prop := exists s, v = PStr s.

(** ** scenario/scripts/snapshot.py *)

(** The exceptions the snapshot code raises: Python's builtins, and the
    [SnapshotError] subclasses of the script. *)
Inductive snap_exn : Type :=
| PyExc (e : exn)
| InvalidTargetUnitName (unit_name : string)
| InvalidTargetModelName (name : pyval).

Inductive sresult (A : Type) : Type :=
| SOk (a : A)
| SErr (e : snap_exn).
Arguments SOk {A} a.
Arguments SErr {A} e.

(** [isinstance(e, RuntimeError)]: [NotImplementedError], [StateError] and
    [SnapshotError] are subclasses of it. *)
Definition is_runtime_error (e : snap_exn) : bool :=
  match e with
  | PyExc (RuntimeError _) | PyExc (NotImplementedError _)
  | PyExc (StateError _ _ _ _) | PyExc (QuestionNotImplementedError _) => true
  | InvalidTargetUnitName _ | InvalidTargetModelName _ => true
  | PyExc _ => false
  end.

(** [s.rpartition(sep)] for a one-character separator. *)
Fixpoint py_rpartition (sep : ascii) (s : string) : string * string * string :=
  match s with
  | EmptyString => ("", "", "")
  | String c r =>
      let '(h, m, t) := py_rpartition sep r in
      if String.eqb m "" then
        if Ascii.eqb c sep then ("", String sep EmptyString, t) else ("", "", String c t)
      else (String c h, m, t)
  end.

Record JujuUnitName := {
  jun_unit_name : string;
  jun_app_name : string;
  jun_unit_id : Z;
  jun_normalized : string;
}.

(** [JujuUnitName(unit_name)] *)
Definition juju_unit_name (unit_name : string) : sresult JujuUnitName :=
  let '(app_name, _, unit_id) := py_rpartition "/"%char unit_name in
  if String.eqb app_name "" || String.eqb unit_id "" then SErr (InvalidTargetUnitName unit_name)
  else match py_int_of_str unit_id with
       | Ok n => SOk {| jun_unit_name := unit_name; jun_app_name := app_name;
                        jun_unit_id := n; jun_normalized := app_name ++ "-" ++ unit_id |}
       | Err e => SErr (PyExc e)
       end.

Definition JUJU_RELATION_KEYS : list string :=
  ["egress-subnets"; "ingress-address"; "private-address"].

(** [del d[k]] on a dict. *)
Fixpoint dict_del (d : list (pyval * pyval)) (k : pyval) : option (list (pyval * pyval)) :=
  match d with
  | [] => None
  | (k', v) :: r => if py_eq k k' then Some r else option_map (cons (k', v)) (dict_del r k)
  end.

(** [for key in keys: del relation_data[key]] *)
Fixpoint del_keys (keys : list string) (d : list (pyval * pyval)) : sresult (list (pyval * pyval)) :=
  match keys with
  | [] => SOk d
  | k :: ks =>
      match dict_del d (PStr k) with
      | Some d' => del_keys ks d'
      | None => SErr (PyExc (KeyError (PStr k)))
      end
  end.

(** [_clean] of [get_relations].  [keys] is the order in which the frozenset
    [JUJU_RELATION_KEYS] is iterated, which Python leaves unspecified. *)
Definition clean (include_juju_relation_data : bool) (keys : list string) (relation_data : pyval)
    : sresult pyval :=
  if include_juju_relation_data then SOk relation_data
  else match relation_data with
       | PDict d =>
           match del_keys keys d with SOk d' => SOk (PDict d') | SErr e => SErr e end
       | _ => SErr (PyExc TypeError)
       end.

(** [metadata.get(role, {}).items()] *)
Definition role_items (metadata : pyval) (role : string) : result (list (pyval * pyval)) :=
  match metadata with
  | PDict md =>
      match dict_lookup md (PStr role) with
      | None => Ok []
      | Some (PDict d) => Ok d
      | Some _ => Err AttributeError
      end
  | _ => Err AttributeError
  end.

(** [for ep, ep_meta in items: if ep == endpoint: ...] *)
Fixpoint find_endpoint (endpoint : string) (items : list (pyval * pyval)) : option pyval :=
  match items with
  | [] => None
  | (ep, ep_meta) :: r => if py_eq ep (PStr endpoint) then Some ep_meta else find_endpoint endpoint r
  end.

Fixpoint interface_in_roles (endpoint : string) (metadata : pyval) (roles : list string)
    : result (option pyval) :=
  match roles with
  | [] => Ok None
  | role :: rest =>
      match role_items metadata role with
      | Err e => Err e
      | Ok items =>
          match find_endpoint endpoint items with
          | Some ep_meta =>
              match py_getitem ep_meta (PStr "interface") with
              | Ok v => Ok (Some v)
              | Err e => Err e
              end
          | None => interface_in_roles endpoint metadata rest
          end
      end
  end.

(** [_get_interface_from_metadata(endpoint, metadata)]; [None] after the
    logged error. *)
Definition get_interface_from_metadata (endpoint : string) (metadata : pyval)
    : result (option pyval) :=
  interface_in_roles endpoint metadata ["provides"; "requires"].

Record Mount := {
  mount_src : pyval;
  mount_location : string;
}.

(** [for mt in mount_meta: if name := mt.get("storage"):
    mount_spec[name] = mt["location"]], else the mount is logged and left out. *)
Fixpoint mount_spec_of (mts : list pyval) (acc : list (pyval * pyval))
    : result (list (pyval * pyval)) :=
  match mts with
  | [] => Ok acc
  | mt :: r =>
      match py_get mt (PStr "storage") with
      | Err e => Err e
      | Ok nm =>
          if truthy nm then
            match py_getitem mt (PStr "location") with
            | Err e => Err e
            | Ok loc => if hashable nm then mount_spec_of r (dict_set acc nm loc) else Err TypeError
            end
          else mount_spec_of r acc
      end
  end.

(** [s.startswith(prefix)] *)
Definition py_startswith (s : string) (prefix : pyval) : result bool :=
  match prefix with
  | PStr p => Ok (String.prefix p s)
  | PTuple ps =>
      let fix go (ps : list pyval) : result bool :=
        match ps with
        | [] => Ok false
        | PStr p :: r => if String.prefix p s then Ok true else go r
        | _ :: _ => Err TypeError
        end in go ps
  | _ => Err TypeError
  end.

(** [for mn, mt in mount_spec.items(): if str(remote_path).startswith(mt):
    found = mn, mt] *)
Fixpoint last_mount (remote_path : string) (spec : list (pyval * pyval))
    (found : option (pyval * pyval)) : result (option (pyval * pyval)) :=
  match spec with
  | [] => Ok found
  | (mn, mt) :: r =>
      match py_startswith remote_path mt with
      | Err e => Err e
      | Ok b => last_mount remote_path r (if b then Some (mn, mt) else found)
      end
  end.

Fixpoint mounts_lookup (ms : list (pyval * Mount)) (k : pyval) : option Mount :=
  match ms with
  | [] => None
  | (k', m) :: r => if py_eq k k' then Some m else mounts_lookup r k
  end.

Section GetMounts.
(** The effects of [get_mounts] on the host and the remote unit:
    [tmpdir n] is the name of the [n]-th [tempfile.TemporaryDirectory];
    [prepare_dir mount remote_path] builds [filepath] under
    [mount.location] and runs [os.makedirs] for it; [fetch_file
    remote_path filepath] is [fetch_file(...)]. *)
Variable tmpdir : nat -> string.
Variable prepare_dir : Mount -> string -> sresult string.
Variable fetch_file : string -> string -> sresult unit.

(** [for remote_path in fetch_files or (): ...] *)
Fixpoint fetch_into (spec : list (pyval * pyval)) (files : list string)
    (mounts : list (pyval * Mount)) (ntmp : nat) : sresult (list (pyval * Mount)) :=
  match files with
  | [] => SOk mounts
  | remote_path :: r =>
      match last_mount remote_path spec None with
      | Err e => SErr (PyExc e)
      | Ok None => fetch_into spec r mounts ntmp
      | Ok (Some (mount_name, src)) =>
          let '(mount, mounts', ntmp') :=
            match mounts_lookup mounts mount_name with
            | Some m => (m, mounts, ntmp)
            | None =>
                let m := {| mount_src := src; mount_location := tmpdir ntmp |} in
                (m, (mounts ++ [(mount_name, m)])%list, S ntmp)
            end in
          match prepare_dir mount remote_path with
          | SErr e => SErr e
          | SOk filepath =>
              match fetch_file remote_path filepath with
              | SOk _ => fetch_into spec r mounts' ntmp'
              | SErr e =>
                  if is_runtime_error e then fetch_into spec r mounts' ntmp' else SErr e
              end
          end
      end
  end.

(** [get_mounts(target, model, container_name, container_meta, fetch_files)] *)
Definition get_mounts (container_meta : pyval) (fetch_files : option (list string))
    : sresult (list (pyval * Mount)) :=
  match py_get container_meta (PStr "mounts") with
  | Err e => SErr (PyExc e)
  | Ok mount_meta =>
      let files := match fetch_files with Some l => l | None => [] end in
      if negb (match files with [] => false | _ => true end) || truthy mount_meta then
        match py_tuple mount_meta with
        | Err e => SErr (PyExc e)
        | Ok mts =>
            match mount_spec_of mts [] with
            | Err e => SErr (PyExc e)
            | Ok spec => fetch_into spec files [] 0
            end
        end
      else SOk []
  end.
End GetMounts.

(** The mount a remote path is fetched into, as the loop of [get_mounts]
    picks it: the last entry of [mount_spec] whose location is a prefix of
    the path. *)
Definition last_prefix_mount (remote_path : string) (spec : list (pyval * string))
    : option (pyval * string) :=
  last_opt (filter (fun '(_, l) => String.prefix l remote_path) spec).

(** [converters[type]] of [get_config]; the builtins [str], [int] and
    [float] are [conv_str], [conv_int] and [conv_float]. *)
Definition converter_of (conv_str conv_int conv_float : pyval -> result pyval) (ty : pyval)
    : option (pyval -> result pyval) :=
  if py_eq ty (PStr "string") then Some conv_str
  else if py_eq ty (PStr "integer") then Some conv_int
  else if py_eq ty (PStr "number") then Some conv_float
  else if py_eq ty (PStr "boolean") then Some (fun x => Ok (PBool (py_eq x (PStr "true"))))
  else if py_eq ty (PStr "attrs") then Some (fun x => Ok x)
  else None.

Section GetConfig.
Variables conv_str conv_int conv_float : pyval -> result pyval.

(** [for name, option in settings: if value := option.get("value"): ...].
    A missing "type" raises [KeyError] in the [try], and again in the
    handler's f-string. *)
Fixpoint config_of_settings (items cfg : list (pyval * pyval)) : sresult (list (pyval * pyval)) :=
  match items with
  | [] => SOk cfg
  | (nm, option) :: r =>
      match py_get option (PStr "value") with
      | Err e => SErr (PyExc e)
      | Ok value =>
          if truthy value then
            match py_getitem option (PStr "type") with
            | Err e => SErr (PyExc e)
            | Ok ty =>
                if hashable ty then
                  match converter_of conv_str conv_int conv_float ty with
                  | None => SErr (PyExc ValueError)
                  | Some conv =>
                      match conv value with
                      | Ok v => if hashable nm then config_of_settings r (dict_set cfg nm v)
                                else SErr (PyExc TypeError)
                      | Err e => SErr (PyExc e)
                      end
                  end
                else SErr (PyExc TypeError)
            end
          else config_of_settings r cfg
      end
  end.

(** [get_config(target, model)]; [juju_run cmd model] is [_juju_run]. *)
Definition get_config (juju_run : string -> option string -> sresult pyval)
    (target : JujuUnitName) (model : option string) : sresult (list (pyval * pyval)) :=
  match juju_run ("config " ++ jun_app_name target) model with
  | SErr e => SErr e
  | SOk jsn =>
      match jsn with
      | PDict d =>
          match dict_lookup d (PStr "settings") with
          | Some (PDict items) => config_of_settings items []
          | _ => SErr (PyExc AttributeError)        (* ().items(), or no .items() *)
          end
      | _ => SErr (PyExc AttributeError)
      end
  end.
End GetConfig.

Record Model := {
  model_name : pyval;
  model_uuid : pyval;
  model_type : pyval;
}.

(** [next(filter(lambda m: m["short-name"] == model_name, models))] *)
Fixpoint find_model (model_name : pyval) (models : list pyval) : result (option pyval) :=
  match models with
  | [] => Ok None
  | m :: r =>
      match py_getitem m (PStr "short-name") with
      | Err e => Err e
      | Ok sn => if py_eq sn model_name then Ok (Some m) else find_model model_name r
      end
  end.

(** [get_model(name)]; [juju_run cmd model] is [_juju_run]. *)
Definition get_model (juju_run : string -> option string -> sresult pyval) (name : option string)
    : sresult Model :=
  let name_v := match name with Some n => PStr n | None => PNone end in
  match juju_run "models" None with
  | SErr e => SErr e
  | SOk jsn =>
      let model_name := if truthy name_v then Ok name_v else py_getitem jsn (PStr "current-model") in
      match model_name with
      | Err e => SErr (PyExc e)
      | Ok mn =>
          match py_getitem jsn (PStr "models") with
          | Err e => SErr (PyExc e)
          | Ok ms =>
              match py_tuple ms with
              | Err e => SErr (PyExc e)
              | Ok models =>
                  match find_model mn models with
                  | Err e => SErr (PyExc e)
                  | Ok None => SErr (InvalidTargetModelName name_v)
                  | Ok (Some info) =>
                      match py_getitem info (PStr "model-uuid"), py_getitem info (PStr "type") with
                      | Ok u, Ok t => SOk {| model_name := mn; model_uuid := u; model_type := t |}
                      | Err e, _ | _, Err e => SErr (PyExc e)
                      end
                  end
              end
          end
      end
  end.

(** A dict with string keys, as JSON objects decode; and the entries of
    such a dict whose key is not in [ks]. *)
Definition strd (kvs : list (string * pyval)) : list (pyval * pyval) :=
  map (fun kv => (PStr (fst kv), snd kv)) kvs.

Definition keep_unlisted (ks : list string) (kv : string * pyval) : bool :=
  negb (existsb (String.eqb (fst kv)) ks).

(** ** General lemmas *)

Lemma find_index_none {A} (p : A -> bool) (l : list A) :
  find_index p l = None -> forall x, In x l -> p x = false.
Proof.
  induction l as [|y r IH]; simpl; [tauto|].
  destruct (p y) eqn:Hy; [discriminate|].
  destruct (find_index p r) as [[i z]|]; [discriminate|].
  intros _ x [<-|Hx]; auto.
Qed.

Lemma find_index_some_of_in {A} (p : A -> bool) (l : list A) x :
  In x l -> p x = true -> exists i y, find_index p l = Some (i, y).
Proof.
  intros Hin Hp. destruct (find_index p l) as [[i y]|] eqn:E; eauto.
  rewrite (find_index_none p l E x Hin) in Hp; discriminate.
Qed.

Lemma py_eq_str (a b : string) : py_eq (PStr a) (PStr b) = String.eqb a b.
Proof. reflexivity. Qed.

Lemma dict_lookup_set_same d k v :
  py_eq k k = true -> dict_lookup (dict_set d k v) k = Some v.
Proof.
  intros Hk; induction d as [|[k' v'] r IH]; simpl.
  - now rewrite Hk.
  - destruct (py_eq k k') eqn:E; simpl; rewrite E; auto.
Qed.

Lemma dict_set_lookup_same d k v :
  dict_lookup d k = Some v -> dict_set d k v = d.
Proof.
  induction d as [|[k' v'] r IH]; simpl; [discriminate|].
  destruct (py_eq k k'); [congruence|].
  intros H; now rewrite IH.
Qed.



Lemma replace_nth_same {A} (l : list A) i x :
  nth_error l i = Some x -> replace_nth i x l = l.
Proof.
  revert i; induction l as [|y r IH]; intros [|i]; simpl; try discriminate.
  - congruence.
  - intros H; now rewrite IH.
Qed.

Lemma find_index_nth {A} (p : A -> bool) (l : list A) i x :
  find_index p l = Some (i, x) -> nth_error l i = Some x /\ p x = true.
Proof.
  revert i; induction l as [|y r IH]; intros i; simpl; [discriminate|].
  destruct (p y) eqn:Hy.
  - intros H; inversion H; subst; auto.
  - destruct (find_index p r) as [[j z]|] eqn:E; [|discriminate].
    intros H; inversion H; subst; simpl; auto.
Qed.

Lemma find_index_replace {A} (p : A -> bool) (l : list A) i x x' :
  find_index p l = Some (i, x) -> p x' = true ->
  find_index p (replace_nth i x' l) = Some (i, x').
Proof.
  revert i; induction l as [|y r IH]; intros i; simpl; [discriminate|].
  destruct (p y) eqn:Hy.
  - intros H Hx'; inversion H; subst; simpl; now rewrite Hx'.
  - destruct (find_index p r) as [[j z]|] eqn:E; [|discriminate].
    intros H Hx'; inversion H; subst; simpl; rewrite Hy.
    now rewrite (IH j eq_refl Hx').
Qed.

Lemma find_index_none_of {A} (p : A -> bool) (l : list A) :
  (forall x, In x l -> p x = false) -> find_index p l = None.
Proof.
  induction l as [|y r IH]; simpl; intros H; auto.
  rewrite (H y (or_introl eq_refl)), IH; auto.
Qed.

Lemma dict_lookup_app a b k :
  dict_lookup (a ++ b)%list k =
  match dict_lookup a k with Some v => Some v | None => dict_lookup b k end.
Proof.
  induction a as [|[k' v'] r IH]; simpl; auto.
  destruct (py_eq k k'); auto.
Qed.

Lemma dict_set_absent d k v : dict_lookup d k = None -> dict_set d k v = (d ++ [(k, v)])%list.
Proof.
  induction d as [|[k' v'] r IH]; simpl; auto.
  destruct (py_eq k k'); [discriminate|]. intros H; now rewrite IH.
Qed.

Lemma config_defaults_options opts acc :
  NoDup (map fst opts) ->
  (forall n, In n (map fst opts) -> dict_lookup acc (PStr n) = None) ->
  config_defaults (option_specs opts) acc = Ok (acc ++ defaults_map opts)%list.
Proof.
  revert acc; induction opts as [|[n o] r IH]; intros acc Hnd Hfresh; simpl.
  - now rewrite app_nil_r.
  - unfold dict_get; simpl.
    replace (match dict_lookup o (PStr "default") with Some v => Ok v | None => Ok PNone end)
      with (@Ok pyval (declared_default o))
      by (unfold declared_default; now destruct (dict_lookup o (PStr "default"))).
    rewrite dict_set_absent by (apply Hfresh; simpl; auto).
    inversion Hnd as [|? ? Hn Hnd']; subst.
    rewrite IH; auto.
    + now rewrite <- app_assoc.
    + intros m Hm. rewrite dict_lookup_app, Hfresh by (simpl; auto). simpl.
      try rewrite py_eq_str. destruct (String.eqb_spec m n); [subst; contradiction|auto].
Qed.

Lemma defaults_map_lookup opts n o :
  NoDup (map fst opts) -> In (n, o) opts ->
  dict_lookup (defaults_map opts) (PStr n) = Some (declared_default o).
Proof.
  induction opts as [|[m o'] r IH]; simpl; [tauto|].
  intros Hnd Hin; inversion Hnd as [|? ? Hm Hnd']; subst.
  try rewrite py_eq_str. destruct Hin as [Heq|Hin].
  - inversion Heq; subst. now rewrite String.eqb_refl.
  - destruct (String.eqb_spec n m); auto.
    subst. exfalso; apply Hm. now apply (in_map fst r (m, o)).
Qed.

Lemma defaults_map_lookup_none opts n :
  ~ In n (map fst opts) -> dict_lookup (defaults_map opts) (PStr n) = None.
Proof.
  induction opts as [|[m o] r IH]; simpl; auto.
  intros Hn. try rewrite py_eq_str. destruct (String.eqb_spec n m); [subst; tauto|auto].
Qed.

(** ** C1: relation_set *)

(** C1. Writing app-scoped relation data (an [app] argument that is truthy)
    while [State.leader] is false, to a relation present in the scene, fails
    with the permission condition [RuntimeError("needs leadership to set app
    data")], re-raised inside the state-error wrapper of a setter, and the
    world, hence every relation's data, is left as it was. *)
Theorem relation_set_app_needs_leadership (w : World) (charm_spec : option CharmSpec)
    (slf : PySelf) (kwargs : list (string * pyval)) (rel_id key value app : pyval)
    (Hrel : exists r, In r (relations (state (scene w))) /\
                      py_eq (PInt (relation_id (meta r))) rel_id = true)
    (Happ : truthy app = true)
    (Hlead : leader (state (scene w)) = false) :
  wrap_tool "_ModelBackend" "relation_set" charm_spec
    {| call_self := slf; call_args := [rel_id; key; value; app]; call_kwargs := kwargs |} w
  = (w, Err (StateError "setting" "_ModelBackend" "relation_set"
               (RuntimeError "needs leadership to set app data"))).
Proof.
  destruct Hrel as [r [Hin Hr]].
  destruct (find_index_some_of_in
              (fun r0 => py_eq (PInt (relation_id (meta r0))) rel_id) _ r Hin Hr)
    as [i [y Hf]].
  unfold wrap_tool, simulate, model_backend, find_relation.
  cbn -[py_eq find_index]. rewrite Hf. cbn -[py_eq find_index].
  rewrite Happ, Hlead. reflexivity.
Qed.

Lemma relation_set_app_needs_leadership_witness :
  (exists r, In r (relations (state (scene (sample_world false [] [])))) /\
             py_eq (PInt (relation_id (meta r))) (PInt 1) = true) /\
  truthy (PBool true) = true /\ leader (state (scene (sample_world false [] []))) = false /\
  wrap_tool "_ModelBackend" "relation_set" None
    {| call_self := BackendSelf; call_args := [PInt 1; PStr "k"; PStr "v"; PBool true];
       call_kwargs := [] |} (sample_world false [] [])
  = (sample_world false [] [],
     Err (StateError "setting" "_ModelBackend" "relation_set"
            (RuntimeError "needs leadership to set app data"))).
Proof.
  split; [exists sample_relation; simpl; auto|].
  split; [reflexivity|]. split; [reflexivity|].
  apply relation_set_app_needs_leadership; [exists sample_relation; simpl; auto
                                           | reflexivity | reflexivity].
Defined.

(** ** C2: config_get *)

(** C2, counterexample.  With an empty [State.config] and a schema declaring
    option "foo" without a default, the keyed read of "foo" does not fail:
    [value.get("default")] put None under "foo", and None is returned. *)
Lemma config_get_undefaulted_key_returns_none :
  wrap_tool "_ModelBackend" "config_get"
    (Some {| spec_config := option_specs [("foo", [(PStr "type", PStr "string")])] |})
    {| call_self := BackendSelf; call_args := [PStr "foo"]; call_kwargs := [] |}
    (sample_world false [] [])
  = (sample_world false [] [], Ok (RVal PNone)).
Proof. reflexivity. Qed.

(** C2, as the code has it.  With [State.config] empty and a schema of
    distinct option names, each declared by a dict: the read with no key
    returns the mapping of each option to its declared default (None when it
    has none), in declaration order; a keyed read of a declared option
    returns that default; a keyed read of an undeclared key fails with the
    not-found condition [KeyError], re-raised inside the state-error wrapper.
    When [State.config] is not empty, a key it has no value for fails the
    same way, whatever the schema declares. *)
Theorem config_get_defaults (w : World) (slf : PySelf) (kw : list (string * pyval))
    (opts : list (string * list (pyval * pyval)))
    (Hcfg : config (state (scene w)) = [])
    (Hnd : NoDup (map fst opts)) :
  let cs := Some {| spec_config := option_specs opts |} in
  let read args := wrap_tool "_ModelBackend" "config_get" cs
                     {| call_self := slf; call_args := args; call_kwargs := kw |} w in
  read [] = (w, Ok (RVal (PDict (defaults_map opts)))) /\
  (forall k o, In (k, o) opts -> read [PStr k] = (w, Ok (RVal (declared_default o)))) /\
  (forall k, ~ In k (map fst opts) ->
     read [PStr k] = (w, Err (StateError "getting" "_ModelBackend" "config_get"
                                (KeyError (PStr k))))) /\
  (forall w' charm_spec k, config (state (scene w')) <> [] ->
     dict_lookup (config (state (scene w'))) (PStr k) = None ->
     wrap_tool "_ModelBackend" "config_get" charm_spec
       {| call_self := slf; call_args := [PStr k]; call_kwargs := kw |} w'
     = (w', Err (StateError "getting" "_ModelBackend" "config_get" (KeyError (PStr k))))).
Proof.
  intros cs read.
  assert (Hdef : config_defaults (option_specs opts) [] = Ok (defaults_map opts))
    by (apply config_defaults_options; auto).
  assert (Hread : forall args, read args =
            match args with
            | key :: _ => (w, match dict_getitem (defaults_map opts) key with
                              | Ok v => Ok (RVal v)
                              | Err e => Err (StateError "getting" "_ModelBackend" "config_get" e)
                              end)
            | [] => (w, Ok (RVal (PDict (defaults_map opts))))
            end).
  { intros args. unfold read, cs, wrap_tool, simulate, model_backend.
    cbn -[config_defaults dict_getitem option_specs]. rewrite Hcfg.
    cbn -[config_defaults dict_getitem option_specs]. rewrite Hdef.
    destruct args as [|key r]; cbn -[dict_getitem]; auto.
    destruct (dict_getitem (defaults_map opts) key); reflexivity. }
  split; [|split; [|split]].
  - apply Hread.
  - intros k o Hin. rewrite Hread. unfold dict_getitem. simpl hashable. cbv iota.
    now rewrite (defaults_map_lookup opts k o Hnd Hin).
  - intros k Hk. rewrite Hread. unfold dict_getitem. simpl hashable. cbv iota.
    now rewrite (defaults_map_lookup_none opts k Hk).
  - intros w' charm_spec k Hne Hk.
    unfold wrap_tool, simulate, model_backend. cbn -[config_defaults dict_getitem].
    destruct (config (state (scene w'))) as [|kv r] eqn:E; [contradiction|].
    cbn -[dict_lookup]. rewrite Hk. reflexivity.
Qed.

Lemma config_get_defaults_witness :
  config (state (scene (sample_world false [] []))) = [] /\
  NoDup (map fst [("port", [(PStr "default", PInt 80)]); ("name", [])]) /\
  wrap_tool "_ModelBackend" "config_get"
    (Some {| spec_config := option_specs [("port", [(PStr "default", PInt 80)]); ("name", [])] |})
    {| call_self := BackendSelf; call_args := []; call_kwargs := [] |} (sample_world false [] [])
  = (sample_world false [] [], Ok (RVal (PDict [(PStr "port", PInt 80); (PStr "name", PNone)]))).
Proof.
  assert (Hnd : NoDup (map fst [("port", [(PStr "default", PInt 80)]); ("name", [])])).
  { simpl. constructor; [simpl; intros [H|H]; [discriminate|contradiction]|].
    constructor; [simpl; tauto|constructor]. }
  split; [reflexivity|]. split; [exact Hnd|].
  exact (proj1 (config_get_defaults (sample_world false [] []) BackendSelf []
                  [("port", [(PStr "default", PInt 80)]); ("name", [])] eq_refl Hnd)).
Defined.

(** ** C3: the system-info probe *)

(** C3. For the container a client resolves to, [_request("GET",
    "/v1/system-info")] returns the version payload when [can_connect] is
    true and otherwise raises [FileNotFoundError("")] unwrapped; the world is
    unchanged either way. *)
Theorem system_info_iff_can_connect (w : World) (charm_spec : option CharmSpec)
    (sp : string) (kw : list (string * pyval)) (i : nat) (c : Container)
    (Hc : client_container w sp = Some (i, c)) :
  wrap_tool "Client" "_request" charm_spec
    {| call_self := ClientSelf sp; call_args := [PStr "GET"; PStr "/v1/system-info"];
       call_kwargs := kw |} w
  = (w, if can_connect c then Ok (RVal sysinfo) else Err (FileNotFoundError "")).
Proof.
  unfold client_container in Hc.
  destruct (second_last_opt (py_split "/"%char sp)) as [cname|] eqn:Hn; [|discriminate].
  unfold wrap_tool, simulate, pebble_client. cbn -[py_split find_index second_last_opt].
  rewrite Hn, Hc. cbn -[py_split find_index second_last_opt].
  destruct (can_connect c); reflexivity.
Qed.

Lemma system_info_iff_can_connect_witness :
  client_container (sample_world false [] [sample_container (PDict []) [] []])
    "/charm/containers/workload/pebble.socket"
  = Some (0, sample_container (PDict []) [] []) /\
  wrap_tool "Client" "_request" None
    {| call_self := sample_client; call_args := [PStr "GET"; PStr "/v1/system-info"];
       call_kwargs := [] |} (sample_world false [] [sample_container (PDict []) [] []])
  = (sample_world false [] [sample_container (PDict []) [] []], Ok (RVal sysinfo)).
Proof.
  split; [reflexivity|].
  exact (system_info_iff_can_connect (sample_world false [] [sample_container (PDict []) [] []])
           None "/charm/containers/workload/pebble.socket" [] 0
           (sample_container (PDict []) [] []) eq_refl).
Defined.

(** ** C5: a client no container matches *)

(** C5, counterexample.  A pull through a client whose socket path names no
    configured container fails with the lookup [RuntimeError] wrapped in the
    state-error wrapper, not with the lookup condition itself. *)
Lemma container_lookup_error_is_wrapped :
  snd (wrap_tool "Client" "pull" None
         {| call_self := ClientSelf "/charm/containers/missing/pebble.socket";
            call_args := [PStr "/etc/x"]; call_kwargs := [] |}
         (sample_world false [] [sample_container (PDict []) [] []]))
  = Err (StateError "getting" "Client" "pull"
           (RuntimeError ("container with name='missing' not found. "
                          ++ "Did you forget a ContainerSpec, or is the socket path "
                          ++ "'/charm/containers/missing/pebble.socket' wrong?"))).
Proof. vm_compute. reflexivity. Qed.

(** C5, as the code has it.  When the segment before the last of the
    client's socket path names no configured container, every [Client] tool
    fails with the lookup condition re-raised inside the state-error wrapper
    (as a getter: the lookup runs before any tool sets the setter flag), and
    the world is unchanged. *)
Theorem container_lookup_failure_wrapped (w : World) (charm_spec : option CharmSpec)
    (tool_name sp cname : string) (args : list pyval) (kw : list (string * pyval))
    (Hn : second_last_opt (py_split "/"%char sp) = Some cname)
    (Hnone : forall c, In c (containers (state (scene w))) -> name c <> cname) :
  wrap_tool "Client" tool_name charm_spec
    {| call_self := ClientSelf sp; call_args := args; call_kwargs := kw |} w
  = (w, Err (StateError "getting" "Client" tool_name
               (RuntimeError ("container with name=" ++ py_repr_str cname
                              ++ " not found. Did you forget a ContainerSpec, or is the socket path "
                              ++ py_repr_str sp ++ " wrong?")))).
Proof.
  assert (Hf : find_index (fun x => String.eqb (name x) cname) (containers (state (scene w)))
               = None).
  { apply find_index_none_of. intros x Hx.
    destruct (String.eqb_spec (name x) cname); [exfalso; exact (Hnone x Hx e)|reflexivity]. }
  unfold wrap_tool, simulate, pebble_client. cbn -[py_split find_index second_last_opt].
  rewrite Hn, Hf. reflexivity.
Qed.

Lemma container_lookup_failure_wrapped_witness :
  second_last_opt (py_split "/"%char "/charm/containers/missing/pebble.socket") = Some "missing" /\
  (forall c, In c (containers (state (scene (sample_world false [] [sample_container (PDict []) [] []]))))
             -> name c <> "missing") /\
  wrap_tool "Client" "push" None
    {| call_self := ClientSelf "/charm/containers/missing/pebble.socket";
       call_args := [PStr "/a"; PStr "x"]; call_kwargs := [] |}
    (sample_world false [] [sample_container (PDict []) [] []])
  = (sample_world false [] [sample_container (PDict []) [] []],
     Err (StateError "getting" "Client" "push"
            (RuntimeError ("container with name=" ++ py_repr_str "missing"
                           ++ " not found. Did you forget a ContainerSpec, or is the socket path "
                           ++ py_repr_str "/charm/containers/missing/pebble.socket" ++ " wrong?")))).
Proof.
  assert (Hnone : forall c, In c (containers (state (scene (sample_world false []
                    [sample_container (PDict []) [] []])))) -> name c <> "missing").
  { simpl. intros c [<-|[]]. simpl. discriminate. }
  split; [reflexivity|]. split; [exact Hnone|].
  exact (container_lookup_failure_wrapped
           (sample_world false [] [sample_container (PDict []) [] []]) None "push"
           "/charm/containers/missing/pebble.socket" "missing" [PStr "/a"; PStr "x"] []
           eq_refl Hnone).
Defined.

(** ** C4: the service listing *)

(** C4, evaluated where the code and the claim part.  One layer declares
    both "a" and "b"; the request names "a,b".  The code returns only the
    definition of "a": removing "a" from [service_names] while iterating
    over it moves "b" into the slot the iterator has already passed.  The
    claim's reading ([services_spec]) returns both definitions. *)
Theorem services_listing_skips_second_name :
  let w := sample_world false []
             [sample_container (PDict []) [service_layer [("a", PInt 1); ("b", PInt 2)]] []] in
  snd (wrap_tool "Client" "_request" None
         {| call_self := sample_client;
            call_args := [PStr "GET"; PStr "/v1/services"; PDict [(PStr "names", PStr "a,b")]];
            call_kwargs := [] |} w)
  = Ok (RVal (PDict [(PStr "result", PList [PInt 1])])) /\
  services_spec [[("a", PInt 1); ("b", PInt 2)]] ["a"; "b"] = [PInt 1; PInt 2].
Proof. split; reflexivity. Qed.

(** ** C8, C9: exec and the process handle *)

(** C8, evaluated at a canned command with exit code 1.  Both [wait()] and
    [wait_output()] of the handle raise [NameError] for [pebble] (bound only
    under [TYPE_CHECKING]) instead of [pebble.ExecError]; with exit code 0,
    [wait_output()] returns the canned stdout and stderr. *)
Theorem exec_failure_raises_name_error :
  let w := sample_world false [] [sample_container (PDict []) [] failing_mock] in
  let run cmd := snd (wrap_tool "Client" "exec" None
                        {| call_self := sample_client; call_args := [PList [PStr cmd]];
                           call_kwargs := [] |} w) in
  match run "false", run "true" with
  | Ok (RProc p), Ok (RProc q) =>
      snd (wait_output p) = Err (NameError "pebble") /\
      snd (wait p) = Err (NameError "pebble") /\
      snd (wait_output q) = Ok ("out", "err") /\
      snd (wait q) = Ok tt
  | _, _ => False
  end.
Proof. vm_compute. repeat split. Qed.

(** C9, evaluated on a handle whose canned exit code is 0: after
    [wait_output()] the handle's [_waited] flag is still false; [wait()]
    sets it. *)
Theorem wait_output_leaves_waited_unset :
  let w := sample_world false [] [sample_container (PDict []) [] failing_mock] in
  match snd (wrap_tool "Client" "exec" None
               {| call_self := sample_client; call_args := [PList [PStr "true"]];
                  call_kwargs := [] |} w) with
  | Ok (RProc p) =>
      waited p = false /\ waited (fst (wait_output p)) = false /\ waited (fst (wait p)) = true
  | _ => False
  end.
Proof. vm_compute. repeat split. Qed.

(** ** C10: the make_dirs keyword *)

(** C10, evaluated where the parent directory exists but is empty: with no
    [make_dirs] keyword the push raises [KeyError('make_dirs')], unwrapped,
    because the empty dict the parent is bound to is falsy and is taken for
    a missing segment. *)
Theorem push_into_empty_dir_needs_make_dirs :
  let w := sample_world false [] [sample_container (PDict [(PStr "a", PDict [])]) [] []] in
  snd (wrap_tool "Client" "push" None
         {| call_self := sample_client; call_args := [PStr "/a/b"; PStr "x"];
            call_kwargs := [] |} w)
  = Err (KeyError (PStr "make_dirs")).
Proof. reflexivity. Qed.

(** ** Lemmas on push and pull *)

Lemma py_split_nonempty sep s : py_split sep s <> [].
Proof.
  destruct s as [|c s']; simpl; [discriminate|].
  destruct (Ascii.eqb c sep); [discriminate|].
  destruct (py_split sep s'); discriminate.
Qed.






Lemma py_get_str d t :
  py_get (PDict d) (PStr t) =
  Ok (match dict_lookup d (PStr t) with Some v => v | None => PNone end).
Proof. unfold py_get, dict_get. simpl. now destruct (dict_lookup d (PStr t)). Qed.

Lemma dict_get_str d t :
  dict_get d (PStr t) =
  Ok (match dict_lookup d (PStr t) with Some v => v | None => PNone end).
Proof. unfold dict_get. simpl. now destruct (dict_lookup d (PStr t)). Qed.



(** With make_dirs falsy, a missing intermediate segment stops the walk with
    [FileNotFoundError] and nothing is changed. *)
Lemma push_walk_missing toks pos path_txt md dsk finish :
  missing_intermediate pos toks = true -> truthy md = false ->
  push_walk pos toks path_txt (Some md) dsk finish
  = (pos, dsk, Err (FileNotFoundError path_txt)).
Proof.
  revert pos; induction toks as [|t r IH]; intros pos Hmiss Hmd.
  - destruct pos; discriminate.
  - destruct pos as [| | | | | |d|]; try discriminate.
    simpl in Hmiss. simpl push_walk. rewrite ?py_get_str, ?dict_get_str.
    destruct (dict_lookup d (PStr t)) as [v|] eqn:Hl.
    + destruct v as [| | | | | |d'|]; try discriminate.
      destruct d' as [|kv d''].
      * simpl. now rewrite Hmd.
      * simpl negb; cbv iota. rewrite (IH _ Hmiss Hmd).
        now rewrite dict_set_lookup_same.
    + simpl. now rewrite Hmd.
Qed.

Lemma world_containers_eta w :
  {| scene := {| state := with_containers (state (scene w)) (containers (state (scene w)));
                 unit_name := unit_name (scene w); app_name := app_name (scene w) |};
     disk := disk w; next_change_id := next_change_id w |} = w.
Proof. destruct w as [[[] u a] d n]; reflexivity. Qed.

Lemma with_filesystem_same c : with_filesystem c (filesystem c) = c.
Proof. destruct c; reflexivity. Qed.

(** Unfold one simulated call down to the tool's own code. *)
Ltac unfold_client_call Hn Hc :=
  unfold wrap_tool, simulate, pebble_client;
  cbn -[py_split find_index second_last_opt push_walk pull_walk push_finish
        removelast disk_lookup universal_newlines];
  rewrite Hn, Hc;
  cbn -[py_split find_index second_last_opt push_walk pull_walk push_finish
        removelast disk_lookup universal_newlines].

(** ** C7: push without make_dirs *)

(** C7.  For the container a client resolves to, pushing an absolute path one
    of whose intermediate segments is missing, with [make_dirs] given and
    false(y), fails with [FileNotFoundError(path)], unwrapped, and the
    world, so the container's filesystem tree, is left as it was. *)
Theorem push_missing_parent_not_found (w : World) (charm_spec : option CharmSpec)
    (sp : string) (kw : list (string * pyval)) (i : nat) (c : Container)
    (rest : string) (contents md : pyval)
    (Hc : client_container w sp = Some (i, c))
    (Hmd : kw_lookup kw "make_dirs" = Some md) (Hfalse : truthy md = false)
    (Hmiss : missing_intermediate (filesystem c) (removelast (py_split "/"%char rest)) = true) :
  wrap_tool "Client" "push" charm_spec
    {| call_self := ClientSelf sp; call_args := [PStr ("/" ++ rest); contents];
       call_kwargs := kw |} w
  = (w, Err (FileNotFoundError ("/" ++ rest))).
Proof.
  unfold client_container in Hc.
  destruct (second_last_opt (py_split "/"%char sp)) as [cname|] eqn:Hn; [|discriminate].
  destruct (find_index_nth _ _ _ _ Hc) as [Hnth _].
  unfold_client_call Hn Hc.
  rewrite Hmd, (push_walk_missing _ _ _ _ _ _ Hmiss Hfalse).
  cbn. rewrite with_filesystem_same, (replace_nth_same _ _ _ Hnth).
  now rewrite world_containers_eta.
Qed.

Lemma push_missing_parent_not_found_witness :
  let c := sample_container (PDict [(PStr "etc", PDict [(PStr "x", PPath "/h/x")])]) [] [] in
  client_container (sample_world false [] [c]) "/charm/containers/workload/pebble.socket"
    = Some (0, c) /\
  kw_lookup [("make_dirs", PBool false)] "make_dirs" = Some (PBool false) /\
  truthy (PBool false) = false /\
  missing_intermediate (filesystem c) (removelast (py_split "/"%char "etc/opt/app.conf")) = true /\
  wrap_tool "Client" "push" None
    {| call_self := sample_client; call_args := [PStr ("/" ++ "etc/opt/app.conf"); PStr "x"];
       call_kwargs := [("make_dirs", PBool false)] |} (sample_world false [] [c])
  = (sample_world false [] [c], Err (FileNotFoundError ("/" ++ "etc/opt/app.conf"))).
Proof.
  intros c. split; [reflexivity|]. split; [reflexivity|]. split; [reflexivity|].
  split; [reflexivity|].
  exact (push_missing_parent_not_found (sample_world false [] [c]) None
           "/charm/containers/workload/pebble.socket" [("make_dirs", PBool false)] 0 c
           "etc/opt/app.conf" (PStr "x") (PBool false) eq_refl eq_refl eq_refl eq_refl).
Defined.

(** ** C6: push with make_dirs, then pull *)




(** ** Further properties of wrap_tool *)

Lemma keeps_mret {A} (a : A) : keeps_world (mret a).
Proof. intros w f; reflexivity. Qed.

Lemma keeps_mraise {A} e : keeps_world (@mraise A e).
Proof. intros w f; reflexivity. Qed.

Lemma keeps_lift {A} (r : result A) : keeps_world (lift r).
Proof. intros w f; reflexivity. Qed.

Lemma keeps_no_wrap : keeps_world no_wrap.
Proof. intros w f; reflexivity. Qed.

Lemma keeps_mark_setter : keeps_world mark_setter.
Proof. intros w f; reflexivity. Qed.

Lemma keeps_get_world {B} (k : World -> M B) :
  (forall w, keeps_world (k w)) -> keeps_world (mbind get_world k).
Proof. intros Hk w f; unfold mbind, get_world; apply Hk. Qed.

Lemma keeps_bind {A B} (m : M A) (k : A -> M B) :
  keeps_world m -> (forall a, keeps_world (k a)) -> keeps_world (mbind m k).
Proof.
  intros Hm Hk w f; unfold mbind.
  specialize (Hm w f). destruct (m w f) as [[w' f'] [a|e]]; simpl in *; subst; auto.
  apply Hk.
Qed.

Ltac keeps_tac :=
  repeat match goal with
  | |- keeps_world (mret _) => apply keeps_mret
  | |- keeps_world (mraise _) => apply keeps_mraise
  | |- keeps_world (lift _) => apply keeps_lift
  | |- keeps_world no_wrap => apply keeps_no_wrap
  | |- keeps_world mark_setter => apply keeps_mark_setter
  | |- keeps_world (mbind get_world _) => apply keeps_get_world; intro
  | |- keeps_world (mbind _ _) => apply keeps_bind; [|intro]
  | |- keeps_world (if ?b then _ else _) => destruct b
  | |- keeps_world (match ?x with _ => _ end) => destruct x
  end.

Lemma wrap_tool_world ns t cs c w :
  fst (wrap_tool ns t cs c w) = fst (fst (simulate ns t cs c w init_flags)).
Proof.
  unfold wrap_tool.
  destruct (simulate ns t cs c w init_flags) as [[w' fl] [[v|]|e]]; simpl; auto.
  destruct (wrap_errors fl); reflexivity.
Qed.


Lemma backend_getters_keep tool cs args kw :
  In tool backend_getters -> keeps_world (model_backend tool cs args kw).
Proof.
  unfold backend_getters; intros Hin.
  repeat (destruct Hin as [<-|Hin];
          [unfold model_backend; cbn -[mbind get_world lift mret mraise]; keeps_tac|]).
  destruct Hin.
Qed.

(** X1: The [_ModelBackend] getters (relation_get, is_leader, status_get, relation_ids, relation_list, config_get, network_get and the six that raise NotImplementedError) never change the world, whether they return or raise. *)
Theorem backend_getters_read_only tool cs c w :
  In tool backend_getters -> fst (wrap_tool "_ModelBackend" tool cs c w) = w.
Proof.
  intros Hin. rewrite wrap_tool_world. unfold simulate. cbn -[model_backend].
  apply backend_getters_keep; exact Hin.
Qed.

Lemma client_read_only_keep tool slf args kw :
  In tool ["_request"; "pull"] -> keeps_world (pebble_client tool slf args kw).
Proof.
  intros Hin.
  repeat (destruct Hin as [<-|Hin];
          [unfold pebble_client; cbn -[mbind get_world lift mret mraise no_wrap]; keeps_tac|]).
  destruct Hin.
Qed.

(** X2: The pebble [Client] tools [_request] and [pull] never change the world, whether they return or raise. *)
Theorem client_request_pull_read_only tool cs c w :
  In tool ["_request"; "pull"] -> fst (wrap_tool "Client" tool cs c w) = w.
Proof.
  intros Hin. rewrite wrap_tool_world. unfold simulate. cbn -[pebble_client].
  apply client_read_only_keep; exact Hin.
Qed.

Lemma relation_set_result w cs slf kw rel_id k value app i r
    (Hr : find_relation rel_id (relations (state (scene w))) = Ok (i, r))
    (Hlead : truthy app = true -> leader (state (scene w)) = true) :
  wrap_tool "_ModelBackend" "relation_set" cs
    {| call_self := slf; call_args := [rel_id; PStr k; value; app]; call_kwargs := kw |} w
  = (with_state w (with_relations (state (scene w)) (replace_nth i
       (if truthy app then with_local_app_data r (dict_set (local_app_data r) (PStr k) value)
        else with_local_unit_data r (dict_set (local_unit_data r) (PStr k) value))
       (relations (state (scene w))))),
     Ok (RVal PNone)).
Proof.
  unfold wrap_tool, simulate, model_backend.
  cbn -[find_relation dict_set replace_nth]. rewrite Hr.
  cbn -[find_relation dict_set replace_nth].
  destruct (truthy app); [rewrite (Hlead eq_refl)|]; reflexivity.
Qed.

Lemma find_relation_replace rel_id rels i r r' :
  find_relation rel_id rels = Ok (i, r) -> meta r' = meta r ->
  find_relation rel_id (replace_nth i r' rels) = Ok (i, r').
Proof.
  unfold find_relation. destruct (find_index _ rels) as [[j r0]|] eqn:Hf; [|discriminate].
  intros H Hm; injection H as Hj Hr0; subst j r0.
  destruct (find_index_nth _ _ _ _ Hf) as [_ Hp].
  rewrite (find_index_replace _ _ _ _ r' Hf); [reflexivity|]. now rewrite Hm.
Qed.

(** X3: After relation_set of [key] to [value] on a relation that exists (and, for app data, on a leader unit), relation_get of the same relation for the own app (app truthy) or the own unit (app falsy) returns a dict that maps [key] to [value]. *)
Theorem relation_set_then_get w cs cs' slf slf' kw kw' rel_id k value app i r
    (Hr : find_relation rel_id (relations (state (scene w))) = Ok (i, r))
    (Hlead : truthy app = true -> leader (state (scene w)) = true) :
  let w' := fst (wrap_tool "_ModelBackend" "relation_set" cs
                   {| call_self := slf; call_args := [rel_id; PStr k; value; app];
                      call_kwargs := kw |} w) in
  let owner := if truthy app then app_name (scene w) else unit_name (scene w) in
  exists d,
    wrap_tool "_ModelBackend" "relation_get" cs'
      {| call_self := slf'; call_args := [rel_id; PStr owner; app]; call_kwargs := kw' |} w'
    = (w', Ok (RVal (PDict d))) /\ dict_lookup d (PStr k) = Some value.
Proof.
  intros w' owner. unfold w'. rewrite (relation_set_result _ _ _ _ _ _ _ _ _ _ Hr Hlead).
  unfold owner. destruct (truthy app) eqn:Ha;
  unfold wrap_tool, simulate, model_backend;
  cbn -[find_relation dict_set replace_nth py_eq];
  erewrite find_relation_replace by (exact Hr || reflexivity);
  cbn -[dict_set replace_nth py_eq]; rewrite Ha; simpl; rewrite String.eqb_refl; simpl;
  (eexists; split; [reflexivity|]); apply dict_lookup_set_same; apply String.eqb_refl.
Qed.

(** X4: status_set with the two arguments (status, message) returns None, and a following status_get of the same scope (its [app] keyword as truthy as status_set's [is_app]) returns {"status": status, "message": message}. *)
Theorem status_set_then_get w cs cs' slf slf' kw kw' args' (st msg : pyval)
    (Hscope : truthy (kw_get kw' "app") = truthy (kw_get kw "is_app")) :
  let set := wrap_tool "_ModelBackend" "status_set" cs
               {| call_self := slf; call_args := [st; msg]; call_kwargs := kw |} w in
  snd set = Ok (RVal PNone) /\
  wrap_tool "_ModelBackend" "status_get" cs'
    {| call_self := slf'; call_args := args'; call_kwargs := kw' |} (fst set)
  = (fst set, Ok (RVal (PDict [(PStr "status", st); (PStr "message", msg)]))).
Proof.
  intros set. unfold set, wrap_tool, simulate, model_backend. cbn.
  rewrite Hscope. destruct (truthy (kw_get kw "is_app")); split; reflexivity.
Qed.

(** X5: status_set with a number of arguments other than two still returns None; the following status_get of the same scope then fails, wrapped as "getting", because it cannot unpack the stored tuple into two values. *)
Theorem status_set_wrong_arity_breaks_get w cs cs' slf slf' kw kw' args args'
    (Hlen : length args <> 2)
    (Hscope : truthy (kw_get kw' "app") = truthy (kw_get kw "is_app")) :
  let set := wrap_tool "_ModelBackend" "status_set" cs
               {| call_self := slf; call_args := args; call_kwargs := kw |} w in
  snd set = Ok (RVal PNone) /\
  wrap_tool "_ModelBackend" "status_get" cs'
    {| call_self := slf'; call_args := args'; call_kwargs := kw' |} (fst set)
  = (fst set, Err (StateError "getting" "_ModelBackend" "status_get" ValueError)).
Proof.
  intros set. unfold set, wrap_tool, simulate, model_backend. cbn.
  rewrite Hscope.
  destruct args as [|a [|b [|c r]]]; [| |simpl in Hlen; lia|];
    destruct (truthy (kw_get kw "is_app")); split; reflexivity.
Qed.

(** X6: Two juju_log calls return None and append their argument tuples to the log, in call order; nothing else in the world changes. *)
Theorem juju_log_two_calls_append w cs slf kw1 kw2 args1 args2 :
  let w1 := fst (wrap_tool "_ModelBackend" "juju_log" cs
                   {| call_self := slf; call_args := args1; call_kwargs := kw1 |} w) in
  let r2 := wrap_tool "_ModelBackend" "juju_log" cs
              {| call_self := slf; call_args := args2; call_kwargs := kw2 |} w1 in
  snd r2 = Ok (RVal PNone) /\
  fst r2 = with_state w (with_juju_log (state (scene w))
                           (juju_log (state (scene w)) ++ [PTuple args1; PTuple args2])).
Proof.
  cbn. split; [reflexivity|]. now rewrite <- app_assoc.
Qed.

(** X7: application_version_set returns None and stores its first argument as the app version, and status_get afterwards gives what it gave before; with no arguments it fails with IndexError wrapped as "setting" and leaves the world unchanged. *)
Theorem application_version_set_only_version w cs cs' slf kw kw' v rest args' :
  let r := wrap_tool "_ModelBackend" "application_version_set" cs
             {| call_self := slf; call_args := v :: rest; call_kwargs := kw |} w in
  snd r = Ok (RVal PNone) /\
  app_version (status (state (scene (fst r)))) = v /\
  wrap_tool "_ModelBackend" "status_get" cs'
    {| call_self := slf; call_args := args'; call_kwargs := kw' |} (fst r)
  = (fst r, snd (wrap_tool "_ModelBackend" "status_get" cs'
                   {| call_self := slf; call_args := args'; call_kwargs := kw' |} w)) /\
  wrap_tool "_ModelBackend" "application_version_set" cs
    {| call_self := slf; call_args := []; call_kwargs := kw |} w
  = (w, Err (StateError "setting" "_ModelBackend" "application_version_set" IndexError)).
Proof.
  cbn. split; [reflexivity|]. split; [reflexivity|]. split; [|reflexivity].
  unfold wrap_tool, simulate, model_backend. cbn.
  destruct (truthy (kw_get kw' "app"));
    [destruct (unpack2 (st_app (status (state (scene w))))) as [[a b]|e]
    |destruct (unpack2 (st_unit (status (state (scene w))))) as [[a b]|e]]; reflexivity.
Qed.

(** X8: A namespace other than [_ModelBackend] and [Client] makes wrap_tool raise a StateError ("getting") wrapping QuestionNotImplementedError(namespace), leaving the world unchanged. *)
Theorem unknown_namespace_wrapped ns tool cs c w
    (Hb : ns <> "_ModelBackend") (Hc : ns <> "Client") :
  wrap_tool ns tool cs c w
  = (w, Err (StateError "getting" ns tool (QuestionNotImplementedError [ns]))).
Proof.
  unfold wrap_tool, simulate.
  rewrite (proj2 (String.eqb_neq _ _) Hb), (proj2 (String.eqb_neq _ _) Hc). reflexivity.
Qed.

(** X9: The unimplemented getters (action_get, relation_remote_app_name, resource_get, storage_list, storage_get, planned_units) fail with NotImplementedError wrapped as "getting"; the unimplemented setters (action_set, action_fail, action_log, storage_add, secret_get, secret_set, secret_grant, secret_remove) fail wrapped as "setting"; the world is unchanged. *)
Theorem unimplemented_backend_tools tool cs c w :
  (In tool ["action_get"; "relation_remote_app_name"; "resource_get"; "storage_list";
            "storage_get"; "planned_units"] ->
   wrap_tool "_ModelBackend" tool cs c w
   = (w, Err (StateError "getting" "_ModelBackend" tool (NotImplementedError tool)))) /\
  (In tool backend_unimplemented_setters ->
   wrap_tool "_ModelBackend" tool cs c w
   = (w, Err (StateError "setting" "_ModelBackend" tool (NotImplementedError tool)))).
Proof.
  unfold backend_unimplemented_setters.
  split; intros Hin; repeat (destruct Hin as [<-|Hin]; [reflexivity|]); destruct Hin.
Qed.

(** X10: A [_ModelBackend] tool name that no branch handles falls out of the try block and raises QuestionNotImplementedError((namespace, tool_name, ...)) unwrapped, not a StateError, leaving the world unchanged. *)
Theorem unknown_backend_tool_unwrapped tool cs c w
    (Hget : ~ In tool backend_getters)
    (Hset : ~ In tool (["application_version_set"; "status_set"; "juju_log"; "relation_set"]
                       ++ backend_unimplemented_setters)) :
  wrap_tool "_ModelBackend" tool cs c w
  = (w, Err (QuestionNotImplementedError ["_ModelBackend"; tool])).
Proof.
  unfold backend_getters, backend_unimplemented_setters in *. simpl in Hget, Hset.
  unfold wrap_tool, simulate, model_backend. cbn -[String.eqb].
  repeat rewrite (proj2 (String.eqb_neq tool _)) by (intros ->; tauto).
  reflexivity.
Qed.

(** X11: For a relation id no relation of the state has, relation_get and relation_list fail with StopIteration wrapped as "getting" and relation_set wrapped as "setting"; the world is unchanged. *)
Theorem unknown_relation_id_fails w cs slf kw rel_id
    (Hnone : forall r, In r (relations (state (scene w))) ->
                       py_eq (PInt (relation_id (meta r))) rel_id = false) :
  (forall obj app,
     wrap_tool "_ModelBackend" "relation_get" cs
       {| call_self := slf; call_args := [rel_id; obj; app]; call_kwargs := kw |} w
     = (w, Err (StateError "getting" "_ModelBackend" "relation_get" StopIteration))) /\
  (forall rest,
     wrap_tool "_ModelBackend" "relation_list" cs
       {| call_self := slf; call_args := rel_id :: rest; call_kwargs := kw |} w
     = (w, Err (StateError "getting" "_ModelBackend" "relation_list" StopIteration))) /\
  (forall key value app,
     wrap_tool "_ModelBackend" "relation_set" cs
       {| call_self := slf; call_args := [rel_id; key; value; app]; call_kwargs := kw |} w
     = (w, Err (StateError "setting" "_ModelBackend" "relation_set" StopIteration))).
Proof.
  assert (Hf : find_relation rel_id (relations (state (scene w))) = Err StopIteration).
  { unfold find_relation. now rewrite (find_index_none_of _ _ Hnone). }
  split; [|split]; intros;
    unfold wrap_tool, simulate, model_backend; cbn -[find_relation]; rewrite Hf; reflexivity.
Qed.

(** X12: config_get with no arguments returns the state's config when it is not empty, whatever the charm spec declares; with an empty state config and no charm spec it fails with AttributeError wrapped as "getting". *)
Theorem config_get_state_config_first w cs slf kw args :
  (config (state (scene w)) <> [] ->
   args = [] ->
   wrap_tool "_ModelBackend" "config_get" cs
     {| call_self := slf; call_args := args; call_kwargs := kw |} w
   = (w, Ok (RVal (PDict (config (state (scene w))))))) /\
  (config (state (scene w)) = [] -> cs = None ->
   wrap_tool "_ModelBackend" "config_get" cs
     {| call_self := slf; call_args := args; call_kwargs := kw |} w
   = (w, Err (StateError "getting" "_ModelBackend" "config_get" AttributeError))).
Proof.
  split.
  - intros Hne ->. unfold wrap_tool, simulate, model_backend. cbn.
    destruct (config (state (scene w))); [contradiction|reflexivity].
  - intros He ->. unfold wrap_tool, simulate, model_backend. cbn. now rewrite He.
Qed.

Lemma digit_char k : k < 10 -> digit_value (ascii_of_nat (48 + k)) = Some (Z.of_nat k).
Proof. intros H. do 10 (destruct k as [|k]; [vm_compute; reflexivity|]). lia. Qed.

Lemma z_digits_parse f : forall z acc,
  (0 <= z)%Z -> (z < 10 ^ Z.of_nat (S f))%Z ->
  exists k : nat, forall n b,
    parse_digits (list_ascii_of_string (z_digits (S f) z acc)) n b
    = parse_digits (list_ascii_of_string acc) (n * 10 ^ Z.of_nat k + z)%Z true.
Proof.
  induction f as [|f IH]; intros z acc Hz Hlt;
  (assert (Hm : (0 <= z mod 10 < 10)%Z) by (apply Z.mod_pos_bound; lia));
  (assert (Hd : digit_value (ascii_of_nat (48 + Z.to_nat (z mod 10))) = Some (z mod 10)%Z)
     by (rewrite digit_char by lia; f_equal; apply Z2Nat.id; lia));
  cbn [z_digits]; destruct (z <? 10)%Z eqn:E.
  - exists 1. intros n b. cbn [list_ascii_of_string parse_digits]. rewrite Hd. cbv iota beta. f_equal.
    apply Z.ltb_lt in E. rewrite Z.mod_small by lia. lia.
  - apply Z.ltb_ge in E. change (10 ^ Z.of_nat 1)%Z with 10%Z in Hlt. lia.
  - exists 1. intros n b. cbn [list_ascii_of_string parse_digits]. rewrite Hd. cbv iota beta. f_equal.
    apply Z.ltb_lt in E. rewrite Z.mod_small by lia. lia.
  - apply Z.ltb_ge in E.
    destruct (IH (z / 10)%Z (String (ascii_of_nat (48 + Z.to_nat (z mod 10))) acc))
      as [k Hk].
    + apply Z.div_pos; lia.
    + rewrite (Nat2Z.inj_succ (S f)), Z.pow_succ_r in Hlt by lia.
      apply Z.div_lt_upper_bound; lia.
    + exists (S k). intros n b. rewrite Hk. cbn [list_ascii_of_string parse_digits]. rewrite Hd. cbv iota beta. f_equal.
      rewrite Nat2Z.inj_succ, Z.pow_succ_r by lia.
      pose proof (Z.div_mod z 10 ltac:(lia)). nia.
Qed.

Lemma z_digits_all_digits f : forall z acc,
  Forall is_digit (list_ascii_of_string acc) ->
  Forall is_digit (list_ascii_of_string (z_digits f z acc)).
Proof.
  induction f as [|f IH]; intros z acc Hacc; simpl; auto.
  assert (Hc : is_digit (ascii_of_nat (48 + Z.to_nat (z mod 10)))).
  { unfold is_digit. assert (Hm : (0 <= z mod 10 < 10)%Z).
    { destruct (Z.neg_nonneg_cases z) as [Hn|Hn].
      - apply Z.mod_pos_bound; lia.
      - apply Z.mod_pos_bound; lia. }
    rewrite digit_char by lia. discriminate. }
  destruct (z <? 10)%Z; [simpl; constructor; auto|].
  apply IH. simpl. constructor; auto.
Qed.

Lemma digit_not_space c : is_digit c -> is_space c = false.
Proof.
  unfold is_digit, digit_value, is_space. intros H.
  destruct (Nat.leb 48 (nat_of_ascii c) && Nat.leb (nat_of_ascii c) 57) eqn:E;
    [|contradiction].
  apply andb_true_iff in E as [E1 E2]. apply Nat.leb_le in E1.
  apply Nat.leb_le in E2.
  destruct (Nat.eqb_spec (nat_of_ascii c) 32); [lia|].
  destruct (Nat.eqb_spec (nat_of_ascii c) 133); [lia|].
  destruct (Nat.eqb_spec (nat_of_ascii c) 160); [lia|].
  destruct (Nat.leb_spec 9 (nat_of_ascii c)); destruct (Nat.leb_spec (nat_of_ascii c) 13);
    simpl; rewrite ?orb_false_r; auto; lia.
Qed.

Lemma drop_spaces_digits l : Forall is_digit l -> drop_spaces l = l.
Proof.
  destruct l as [|c r]; simpl; auto. intros H; inversion H; subst.
  now rewrite digit_not_space.
Qed.

Lemma py_int_of_str_digits s :
  Forall is_digit (list_ascii_of_string s) ->
  py_int_of_str s = match parse_digits (list_ascii_of_string s) 0 false with
                    | Some z => Ok z | None => Err ValueError end.
Proof.
  intros H. unfold py_int_of_str.
  rewrite (drop_spaces_digits _ H), (drop_spaces_digits (rev _)) by (now apply Forall_rev).
  rewrite rev_involutive.
  destruct (list_ascii_of_string s) as [|c t]; [reflexivity|].
  inversion H as [|? ? Hc _]; subst. unfold is_digit in Hc.
  destruct c as [[] [] [] [] [] [] [] []]; try reflexivity; exfalso; apply Hc; reflexivity.
Qed.

Lemma str_of_Z_nonneg n : (0 <= n)%Z ->
  str_of_Z n = z_digits (S (Z.to_nat (Z.log2 n))) n "".
Proof.
  intros H. unfold str_of_Z. rewrite Z.abs_eq by lia.
  destruct (n <? 0)%Z eqn:E; [apply Z.ltb_lt in E; lia|reflexivity].
Qed.

Lemma str_of_Z_digits n : (0 <= n)%Z -> Forall is_digit (list_ascii_of_string (str_of_Z n)).
Proof. intros H. rewrite str_of_Z_nonneg by exact H. apply z_digits_all_digits. constructor. Qed.

Lemma int_str_roundtrip n : (0 <= n)%Z -> py_int_of_str (str_of_Z n) = Ok n.
Proof.
  intros H. rewrite py_int_of_str_digits by (now apply str_of_Z_digits).
  rewrite str_of_Z_nonneg by exact H.
  destruct (z_digits_parse (Z.to_nat (Z.log2 n)) n "" H) as [k Hk].
  - destruct (Z.eq_dec n 0) as [->|Hn0]; [simpl; lia|].
    pose proof (Z.log2_spec n ltac:(lia)) as [_ Hs].
    rewrite Nat2Z.inj_succ, Z2Nat.id by (apply Z.log2_nonneg).
    apply (Z.lt_le_trans _ _ _ Hs). rewrite <- Z.add_1_r.
    apply Z.pow_le_mono_l. lia.
  - rewrite Hk. reflexivity.
Qed.

Lemma py_split_app sep a b :
  py_split sep (a ++ String sep b) = (py_split sep a ++ py_split sep b)%list.
Proof.
  induction a as [|c a' IH]; simpl.
  - now rewrite Ascii.eqb_refl.
  - rewrite IH. destruct (Ascii.eqb c sep); [reflexivity|].
    destruct (py_split sep a') as [|h t] eqn:E; [now apply py_split_nonempty in E|].
    reflexivity.
Qed.

Lemma py_split_no_sep sep s :
  Forall (fun c => Ascii.eqb c sep = false) (list_ascii_of_string s) -> py_split sep s = [s].
Proof.
  induction s as [|c s' IH]; simpl; auto.
  intros H; inversion H; subst. rewrite H2, IH by auto. reflexivity.
Qed.

Lemma digit_not_slash c : is_digit c -> Ascii.eqb c "/"%char = false.
Proof.
  unfold is_digit. intros H. destruct (Ascii.eqb_spec c "/"%char); auto.
  subst. exfalso. apply H. reflexivity.
Qed.

Lemma last_opt_app_single {A} (l : list A) x : last_opt (l ++ [x])%list = Some x.
Proof.
  induction l as [|y r IH]; simpl; auto.
  destruct (r ++ [x])%list eqn:E; [destruct r; discriminate|]. exact IH.
Qed.

Lemma unit_id_segment remote n : (0 <= n)%Z ->
  last_opt (py_split "/"%char (remote ++ "/" ++ str_of_Z n)) = Some (str_of_Z n).
Proof.
  intros H. change ("/" ++ str_of_Z n) with (String "/"%char (str_of_Z n)).
  rewrite py_split_app, (py_split_no_sep _ (str_of_Z n)).
  - apply last_opt_app_single.
  - eapply Forall_impl; [|apply str_of_Z_digits; exact H].
    intros c Hc. now apply digit_not_slash.
Qed.

(** X13: relation_get with a falsy app flag and a name "<remote>/<n>" other than the own unit's returns remote_units_data[n], or fails with KeyError(n) wrapped as "getting" when there is no such entry. *)
Theorem relation_get_remote_unit w cs slf kw rel_id app i r (remote : string) (n : Z)
    (Hr : find_relation rel_id (relations (state (scene w))) = Ok (i, r))
    (Happ : truthy app = false) (Hn : (0 <= n)%Z)
    (Hne : remote ++ "/" ++ str_of_Z n <> unit_name (scene w)) :
  wrap_tool "_ModelBackend" "relation_get" cs
    {| call_self := slf; call_args := [rel_id; PStr (remote ++ "/" ++ str_of_Z n); app];
       call_kwargs := kw |} w
  = (w, match dict_lookup (remote_units_data r) (PInt n) with
        | Some v => Ok (RVal v)
        | None => Err (StateError "getting" "_ModelBackend" "relation_get" (KeyError (PInt n)))
        end).
Proof.
  unfold wrap_tool, simulate, model_backend.
  cbn -[find_relation py_split last_opt py_int_of_str dict_lookup str_of_Z append].
  rewrite Hr. cbn -[find_relation py_split last_opt py_int_of_str dict_lookup str_of_Z append].
  rewrite Happ, (proj2 (String.eqb_neq _ _) Hne), unit_id_segment, int_str_roundtrip by exact Hn.
  cbn -[dict_lookup]. destruct (dict_lookup (remote_units_data r) (PInt n)); reflexivity.
Qed.



Lemma list_remove_length x l :
  (exists y, In y l /\ py_eq x y = true) -> S (length (list_remove x l)) = length l.
Proof.
  induction l as [|y r IH]; simpl; [intros [? [[] _]]|].
  intros Hex. destruct (py_eq x y) eqn:E; [reflexivity|]. simpl. f_equal. apply IH.
  destruct Hex as [z [[<-|Hz] Hxz]]; [congruence|eauto].
Qed.

Lemma list_remove_forall (P : pyval -> Prop) x l : Forall P l -> Forall P (list_remove x l).
Proof.
  induction l as [|y r IH]; simpl; auto. intros H; inversion H; subst.
  destruct (py_eq x y); auto.
Qed.

Lemma services_in_layer_count fuel : forall i names layer res names' res',
  Forall is_pstr names ->
  services_in_layer fuel i names layer res = Ok (names', res') ->
  Forall is_pstr names' /\ (length res' + length names' = length res + length names)%nat.
Proof.
  induction fuel as [|f IH]; intros i names layer res names' res' Hs H; simpl in H.
  - injection H as <- <-. auto.
  - destruct (nth_error names i) as [nm|] eqn:Hnth; [|injection H as <- <-; auto].
    destruct (py_getitem layer (PStr "services")) as [svcs|e]; [|discriminate].
    destruct (py_contains svcs nm) as [[|]|e]; [|eapply IH; eauto|discriminate].
    destruct (py_getitem svcs nm) as [d|e]; [|discriminate].
    apply IH in H; [|now apply list_remove_forall].
    destruct H as [Hs' Hlen]. split; auto. rewrite Hlen, length_app. simpl.
    assert (Hin : In nm names) by (eapply nth_error_In; eauto).
    destruct (proj1 (Forall_forall _ _) Hs nm Hin) as [s ->].
    rewrite <- (list_remove_length (PStr s) names); [lia|].
    exists (PStr s); split; [exact Hin|apply String.eqb_refl].
Qed.

Lemma services_scan_count ls : forall names res r,
  Forall is_pstr names -> services_scan ls names res = Ok r ->
  (length r <= length res + length names)%nat.
Proof.
  induction ls as [|layer ls IH]; intros names res r Hs H; simpl in H.
  - injection H as <-. lia.
  - destruct names as [|n0 ns]; [injection H as <-; lia|].
    destruct (services_in_layer _ 0 (n0 :: ns) layer res) as [[names' res']|e] eqn:E;
      [|discriminate].
    apply services_in_layer_count in E as [Hs' Hlen]; auto.
    apply IH in H; auto. lia.
Qed.

(** X15: The service listing of _request (GET /v1/services) never returns more definitions than there are comma-separated names in the request. *)
Theorem services_result_bounded w cs sp kw csv res
    (Hres : snd (wrap_tool "Client" "_request" cs
                   {| call_self := ClientSelf sp;
                      call_args := [PStr "GET"; PStr "/v1/services";
                                    PDict [(PStr "names", PStr csv)]];
                      call_kwargs := kw |} w)
            = Ok (RVal (PDict [(PStr "result", PList res)]))) :
  (length res <= length (py_split ","%char csv))%nat.
Proof.
  unfold wrap_tool, simulate, pebble_client in Hres.
  cbn -[py_split find_index second_last_opt services_scan] in Hres.
  destruct (second_last_opt (py_split "/"%char sp)) as [cname|]; [|discriminate].
  destruct (find_index _ _) as [[ci c]|]; [|discriminate].
  cbn -[py_split services_scan] in Hres.
  destruct (services_scan (layers c) (map PStr (py_split ","%char csv)) []) as [r|e] eqn:E;
    [|discriminate].
  cbn in Hres. injection Hres as <-.
  apply services_scan_count in E.
  - rewrite length_map in E. simpl in E. lia.
  - apply Forall_forall. intros v Hv. apply in_map_iff in Hv as [s [<- _]]. now exists s.
Qed.

(** X16: exec of a command with no mock in the container fails with RuntimeError wrapped as "getting"; with a mock it returns a process handle whose command is the requested one, whose output is the first matching mock's, and which has not been waited on. *)
Theorem exec_mock_lookup w cs sp kw i c cmd
    (Hc : client_container w sp = Some (i, c)) (Hh : hashable (PTuple cmd) = true) :
  ((forall kv, In kv (exec_mock c) -> py_eq (fst kv) (PTuple cmd) = false) ->
   exists msg, wrap_tool "Client" "exec" cs
                 {| call_self := ClientSelf sp; call_args := [PList cmd]; call_kwargs := kw |} w
               = (w, Err (StateError "getting" "Client" "exec" (RuntimeError msg)))) /\
  (forall j kv, find_index (fun kv => py_eq (fst kv) (PTuple cmd)) (exec_mock c) = Some (j, kv) ->
   exists p w', wrap_tool "Client" "exec" cs
                  {| call_self := ClientSelf sp; call_args := [PList cmd]; call_kwargs := kw |} w
                = (w', Ok (RProc p)) /\
                command p = cmd /\ out p = snd kv /\ waited p = false).
Proof.
  unfold client_container in Hc.
  destruct (second_last_opt (py_split "/"%char sp)) as [cname|] eqn:Hn; [|discriminate].
  split.
  - intros Hnone. eexists.
    unfold wrap_tool, simulate, pebble_client.
    cbn -[py_split find_index second_last_opt hashable]. rewrite Hn, Hc.
    cbn -[py_split find_index second_last_opt hashable]. rewrite Hh.
    rewrite (find_index_none_of _ _ Hnone). reflexivity.
  - intros j [k o] Hf. do 2 eexists.
    unfold wrap_tool, simulate, pebble_client.
    cbn -[py_split find_index second_last_opt hashable]. rewrite Hn, Hc.
    cbn -[py_split find_index second_last_opt hashable]. rewrite Hh, Hf.
    split; [reflexivity|]. simpl. auto.
Qed.

(** ** Properties of the snapshot script *)
Lemma z_digits_nonempty f : forall z acc, acc <> "" -> z_digits f z acc <> "".
Proof.
  induction f as [|f IH]; intros z acc H; simpl; auto.
  destruct (z <? 10)%Z; [discriminate|]. apply IH. discriminate.
Qed.

Lemma str_of_Z_nonempty n : (0 <= n)%Z -> str_of_Z n <> "".
Proof.
  intros H. rewrite str_of_Z_nonneg by exact H. simpl.
  destruct (n <? 10)%Z; [discriminate|]. apply z_digits_nonempty. discriminate.
Qed.

Lemma rpartition_no_sep sep s :
  Forall (fun c => Ascii.eqb c sep = false) (list_ascii_of_string s) ->
  py_rpartition sep s = ("", "", s).
Proof.
  induction s as [|c s' IH]; simpl; auto. intros H; inversion H; subst.
  rewrite IH by auto. simpl. now rewrite H2.
Qed.

Lemma rpartition_last sep a b :
  Forall (fun c => Ascii.eqb c sep = false) (list_ascii_of_string b) ->
  py_rpartition sep (a ++ String sep b) = (a, String sep EmptyString, b).
Proof.
  intros Hb. induction a as [|c a' IH]; simpl.
  - rewrite (rpartition_no_sep _ _ Hb). simpl. now rewrite Ascii.eqb_refl.
  - rewrite IH. reflexivity.
Qed.

(** X17: JujuUnitName(app ++ "/" ++ str(n)) with a non-empty app and n >= 0 gives the unit name, the app name app (kept whole even when it contains "/"), the unit id n and the normalized name app ++ "-" ++ str(n). *)
Theorem juju_unit_name_roundtrip app n (Happ : app <> "") (Hn : (0 <= n)%Z) :
  juju_unit_name (app ++ "/" ++ str_of_Z n)
  = SOk {| jun_unit_name := app ++ "/" ++ str_of_Z n; jun_app_name := app;
           jun_unit_id := n; jun_normalized := app ++ "-" ++ str_of_Z n |}.
Proof.
  unfold juju_unit_name. change ("/" ++ str_of_Z n) with (String "/"%char (str_of_Z n)).
  rewrite rpartition_last.
  - rewrite (proj2 (String.eqb_neq _ _) Happ),
            (proj2 (String.eqb_neq _ _) (str_of_Z_nonempty n Hn)).
    simpl. now rewrite int_str_roundtrip.
  - eapply Forall_impl; [|apply str_of_Z_digits; exact Hn].
    intros c Hc. now apply digit_not_slash.
Qed.

(** X18: JujuUnitName raises InvalidTargetUnitName for a name without "/" and for an empty app or unit id, but a non-numeric unit id raises ValueError from int(), not InvalidTargetUnitName. *)
Theorem juju_unit_name_rejects :
  (forall s, Forall (fun c => Ascii.eqb c "/"%char = false) (list_ascii_of_string s) ->
     juju_unit_name s = SErr (InvalidTargetUnitName s)) /\
  (forall app uid, Forall (fun c => Ascii.eqb c "/"%char = false) (list_ascii_of_string uid) ->
     app = "" \/ uid = "" ->
     juju_unit_name (app ++ "/" ++ uid) = SErr (InvalidTargetUnitName (app ++ "/" ++ uid))) /\
  (forall app uid, Forall (fun c => Ascii.eqb c "/"%char = false) (list_ascii_of_string uid) ->
     app <> "" -> uid <> "" -> py_int_of_str uid = Err ValueError ->
     juju_unit_name (app ++ "/" ++ uid) = SErr (PyExc ValueError)).
Proof.
  split; [|split].
  - intros s Hs. unfold juju_unit_name. now rewrite rpartition_no_sep.
  - intros app uid Hu Hor. unfold juju_unit_name.
    change ("/" ++ uid) with (String "/"%char uid). rewrite rpartition_last by exact Hu.
    destruct Hor as [->| ->]; [reflexivity|].
    now rewrite orb_true_r.
  - intros app uid Hu Ha Hne Hv. unfold juju_unit_name.
    change ("/" ++ uid) with (String "/"%char uid). rewrite rpartition_last by exact Hu.
    rewrite (proj2 (String.eqb_neq _ _) Ha), (proj2 (String.eqb_neq _ _) Hne), Hv.
    reflexivity.
Qed.


Lemma filter_not_key_id k r :
  ~ In k (map fst r) -> filter (fun kv : string * pyval => negb (String.eqb (fst kv) k)) r = r.
Proof.
  induction r as [|[k' v] r IH]; simpl; auto. intros H.
  destruct (String.eqb_spec k' k); [subst; tauto|]. simpl. f_equal. auto.
Qed.

Lemma dict_del_strd_in k kvs :
  NoDup (map fst kvs) -> In k (map fst kvs) ->
  dict_del (strd kvs) (PStr k) = Some (strd (filter (fun kv : string * pyval => negb (String.eqb (fst kv) k)) kvs)).
Proof.
  induction kvs as [|[k' v] r IH]; simpl; [tauto|]. intros Hnd Hin.
  inversion Hnd as [|? ? Hn Hnd']; subst.
  destruct (String.eqb_spec k k') as [->|Hne].
  - rewrite String.eqb_refl. simpl. now rewrite filter_not_key_id.
  - rewrite (proj2 (String.eqb_neq k' k)) by congruence. simpl.
    destruct Hin as [->|Hin]; [congruence|]. rewrite IH by auto. reflexivity.
Qed.

Lemma dict_del_strd_notin k kvs :
  ~ In k (map fst kvs) -> dict_del (strd kvs) (PStr k) = None.
Proof.
  induction kvs as [|[k' v] r IH]; simpl; auto. intros Hin.
  destruct (String.eqb_spec k k'); [subst; tauto|]. rewrite IH by tauto. reflexivity.
Qed.

Lemma NoDup_map_fst_filter (p : string * pyval -> bool) kvs :
  NoDup (map fst kvs) -> NoDup (map fst (filter p kvs)).
Proof.
  induction kvs as [|[k v] r IH]; simpl; auto. intros Hnd; inversion Hnd; subst.
  destruct (p (k, v)); simpl; auto. constructor; auto.
  intros Hin. apply in_map_iff in Hin as [[k' v'] [Hk Hin]]. simpl in Hk; subst.
  apply filter_In in Hin as [Hin _]. apply H1. apply in_map_iff. eexists; split; [|exact Hin]; reflexivity.
Qed.

Lemma in_keys_filter k0 k kvs :
  k0 <> k -> In k0 (map fst kvs) ->
  In k0 (map fst (filter (fun kv : string * pyval => negb (String.eqb (fst kv) k)) kvs)).
Proof.
  intros Hne Hin. apply in_map_iff in Hin as [[k' v'] [Hk Hin]]. simpl in Hk; subst.
  apply in_map_iff. eexists; split; [|apply filter_In; split; [exact Hin|]]; [reflexivity|].
  simpl. now rewrite (proj2 (String.eqb_neq _ _) Hne).
Qed.

Lemma filter_keep_cons k ks kvs :
  filter (keep_unlisted ks) (filter (fun kv : string * pyval => negb (String.eqb (fst kv) k)) kvs)
  = filter (keep_unlisted (k :: ks)) kvs.
Proof.
  induction kvs as [|[k' v] r IH]; simpl; auto. unfold keep_unlisted at 2. simpl.
  destruct (String.eqb k' k); simpl; rewrite <- IH; auto.
Qed.

Lemma del_keys_strd_all ks : forall kvs,
  NoDup ks -> NoDup (map fst kvs) -> Forall (fun k => In k (map fst kvs)) ks ->
  del_keys ks (strd kvs) = SOk (strd (filter (keep_unlisted ks) kvs)).
Proof.
  induction ks as [|k ks IH]; intros kvs Hks Hnd Hall; simpl.
  - f_equal. unfold strd. f_equal. clear. induction kvs as [|kv r IHr]; [reflexivity|].
    unfold keep_unlisted in *; simpl in *. now rewrite <- IHr.
  - inversion Hks as [|? ? Hk Hks']; subst. inversion Hall as [|? ? Hin Hall']; subst.
    rewrite dict_del_strd_in by auto. rewrite IH.
    + now rewrite filter_keep_cons.
    + exact Hks'.
    + now apply NoDup_map_fst_filter.
    + eapply Forall_impl with (P := fun k0 => k0 <> k /\ In k0 (map fst kvs)).
      * intros k0 [? ?]. now apply in_keys_filter.
      * apply Forall_forall. intros k0 H0. split.
        -- intros ->. contradiction.
        -- rewrite Forall_forall in Hall'. auto.
Qed.

Lemma del_keys_strd_missing ks : forall kvs,
  NoDup ks -> NoDup (map fst kvs) -> ~ Forall (fun k => In k (map fst kvs)) ks ->
  exists k, In k ks /\ ~ In k (map fst kvs) /\
            del_keys ks (strd kvs) = SErr (PyExc (KeyError (PStr k))).
Proof.
  induction ks as [|k ks IH]; intros kvs Hks Hnd Hall; simpl.
  - exfalso. apply Hall. constructor.
  - inversion Hks as [|? ? Hk Hks']; subst.
    destruct (in_dec string_dec k (map fst kvs)) as [Hin|Hout].
    + rewrite dict_del_strd_in by auto.
      destruct (IH (filter (fun kv : string * pyval => negb (String.eqb (fst kv) k)) kvs))
        as [k' [Hk' [Hout' Hdel]]].
      * exact Hks'.
      * now apply NoDup_map_fst_filter.
      * intros Hall'. apply Hall. constructor; auto.
        rewrite Forall_forall in *. intros k0 H0. specialize (Hall' k0 H0).
        apply in_map_iff in Hall' as [kv [<- Hkv]]. apply filter_In in Hkv as [Hkv _].
        now apply in_map.
      * exists k'. split; [now right|]. split; [|exact Hdel].
        intros Hin'. apply Hout'. apply in_keys_filter; auto. intros ->. contradiction.
    + exists k. rewrite dict_del_strd_notin by exact Hout. auto.
Qed.

Lemma existsb_same_elems (f : string -> bool) l1 l2 :
  (forall y, In y l1 <-> In y l2) -> existsb f l1 = existsb f l2.
Proof.
  intros H. destruct (existsb f l1) eqn:E1; destruct (existsb f l2) eqn:E2; auto.
  - apply existsb_exists in E1 as [x [Hx Hf]]. apply (H x) in Hx.
    assert (existsb f l2 = true) by (apply existsb_exists; eauto). congruence.
  - apply existsb_exists in E2 as [x [Hx Hf]]. apply (H x) in Hx.
    assert (existsb f l1 = true) by (apply existsb_exists; eauto). congruence.
Qed.

Lemma NoDup_JUJU_RELATION_KEYS : NoDup JUJU_RELATION_KEYS.
Proof.
  unfold JUJU_RELATION_KEYS.
  repeat (constructor; [simpl; intros H; repeat destruct H as [H|H]; try discriminate; exact H|]).
  constructor.
Qed.

(** X19: _clean without juju relation data, on a string-keyed dict, removes exactly the three juju keys (egress-subnets, ingress-address, private-address) when all are present, whatever order the frozenset is iterated in; when one is missing it raises KeyError for a missing one. *)
Theorem clean_drops_juju_keys keys kvs
  (Hperm : Permutation keys JUJU_RELATION_KEYS) (Hnd : NoDup (map fst kvs)) :
  (Forall (fun k => In k (map fst kvs)) JUJU_RELATION_KEYS ->
     clean false keys (PDict (strd kvs))
     = SOk (PDict (strd (filter (keep_unlisted JUJU_RELATION_KEYS) kvs)))) /\
  (~ Forall (fun k => In k (map fst kvs)) JUJU_RELATION_KEYS ->
     exists k, In k JUJU_RELATION_KEYS /\ ~ In k (map fst kvs) /\
       clean false keys (PDict (strd kvs)) = SErr (PyExc (KeyError (PStr k)))).
Proof.
  assert (Hks : NoDup keys)
    by (apply (Permutation_NoDup (Permutation_sym Hperm)), NoDup_JUJU_RELATION_KEYS).
  assert (Hel : forall y, In y keys <-> In y JUJU_RELATION_KEYS)
    by (intros y; split; apply Permutation_in; [exact Hperm | apply Permutation_sym, Hperm]).
  split; intros Hall; unfold clean.
  - rewrite del_keys_strd_all; auto.
    + do 3 f_equal. apply filter_ext. intros kv. unfold keep_unlisted.
      f_equal. now apply existsb_same_elems.
    + rewrite Forall_forall in *. intros k Hk. apply Hall, Hel, Hk.
  - destruct (del_keys_strd_missing keys kvs) as [k [Hk [Hout Hdel]]]; auto.
    + intros Hall'. apply Hall. rewrite Forall_forall in *. intros k Hk. apply Hall', Hel, Hk.
    + exists k. rewrite Hdel. split; [apply Hel, Hk|]. auto.
Qed.

Lemma find_endpoint_app e a b :
  find_endpoint e (a ++ b) =
  match find_endpoint e a with Some x => Some x | None => find_endpoint e b end.
Proof.
  induction a as [|[ep m] a IH]; simpl; auto. destruct (py_eq ep (PStr e)); auto.
Qed.

(** X20: _get_interface_from_metadata looks the endpoint up in provides, then in requires, and returns the interface of the first match, or None; the peers section is never consulted. *)
Theorem get_interface_provides_then_requires endpoint md prov req
  (Hprov : role_items md "provides" = Ok prov) (Hreq : role_items md "requires" = Ok req) :
  get_interface_from_metadata endpoint md =
  match find_endpoint endpoint (prov ++ req) with
  | Some ep_meta =>
      match py_getitem ep_meta (PStr "interface") with Ok v => Ok (Some v) | Err e => Err e end
  | None => Ok None
  end.
Proof.
  unfold get_interface_from_metadata. simpl. rewrite Hprov, find_endpoint_app.
  destruct (find_endpoint endpoint prov); auto. rewrite Hreq.
  destruct (find_endpoint endpoint req); auto.
Qed.

(** X21: For a container whose metadata has no mounts, get_mounts returns {} when files are requested, and raises TypeError (iterating None) when fetch_files is None or empty. *)
Theorem get_mounts_without_mounts tmpdir prep fetch cmd files
  (Hm : match dict_lookup cmd (PStr "mounts") with None | Some PNone => True | _ => False end) :
  get_mounts tmpdir prep fetch (PDict cmd) files =
  match files with Some (_ :: _) => SOk [] | _ => SErr (PyExc TypeError) end.
Proof.
  unfold get_mounts. simpl. unfold dict_get. simpl.
  destruct (dict_lookup cmd (PStr "mounts")) as [[]|]; try contradiction;
    destruct files as [[|f fs]|]; reflexivity.
Qed.

Lemma last_opt_cons {A} (x : A) l :
  last_opt (x :: l) = match last_opt l with Some y => Some y | None => Some x end.
Proof.
  destruct l as [|a l]; [reflexivity|].
  assert (H : exists y, last_opt (a :: l) = Some y).
  { revert a. induction l as [|b l IH]; intros a; [eexists; reflexivity|]. apply IH. }
  destruct H as [y Hy]. change (last_opt (x :: a :: l)) with (last_opt (a :: l)).
  now rewrite Hy.
Qed.

Lemma last_mount_prefix p spec : forall found,
  last_mount p (map (fun '(n, l) => (n, PStr l)) spec) found =
  Ok (match last_prefix_mount p spec with
      | Some (mn, l) => Some (mn, PStr l)
      | None => found
      end).
Proof.
  unfold last_prefix_mount.
  induction spec as [|[mn l] r IH]; intros found; [reflexivity|].
  cbn [map last_mount]. unfold py_startswith. rewrite IH. cbn [filter].
  destruct (String.prefix l p);
    [rewrite last_opt_cons; destruct (last_opt _) as [[]|]|]; reflexivity.
Qed.

(** X22: A single requested file is fetched into the last mount, in metadata order, whose location is a prefix of its path (not the longest one), under the first temporary directory; a path no mount matches is skipped, and a RuntimeError of the fetch is swallowed. *)
Theorem get_mounts_last_prefix tmpdir prep fetch cmd mts spec p
  (Hm : dict_lookup cmd (PStr "mounts") = Some (PList mts))
  (Hspec : mount_spec_of mts [] = Ok (map (fun '(n, l) => (n, PStr l)) spec))
  (Hprep : forall m, exists fp, prep m p = SOk fp)
  (Hfetch : forall fp, match fetch p fp with SOk _ => True | SErr e => is_runtime_error e = true end) :
  get_mounts tmpdir prep fetch (PDict cmd) (Some [p]) =
  SOk match last_prefix_mount p spec with
      | Some (mn, l) => [(mn, {| mount_src := PStr l; mount_location := tmpdir 0 |})]
      | None => []
      end.
Proof.
  unfold get_mounts. simpl. unfold dict_get. simpl. rewrite Hm.
  destruct mts as [|mt mts].
  - simpl in Hspec. destruct spec; [reflexivity|discriminate].
  - simpl truthy. simpl orb. cbv iota. simpl py_tuple. cbv iota. rewrite Hspec.
    rewrite last_mount_prefix.
    destruct (last_prefix_mount p spec) as [[mn l]|]; [|reflexivity].
    destruct (Hprep {| mount_src := PStr l; mount_location := tmpdir 0 |}) as [fp ->].
    specialize (Hfetch fp). destruct (fetch p fp); [reflexivity|].
    rewrite Hfetch. reflexivity.
Qed.

Lemma config_of_settings_keys cs ci cf opts : forall acc cfg,
  NoDup (map fst opts) ->
  (forall n, In n (map fst opts) -> dict_lookup acc (PStr n) = None) ->
  config_of_settings cs ci cf (strd opts) acc = SOk cfg ->
  map fst cfg = (map fst acc ++
    map (fun kv => PStr (fst kv))
      (filter (fun kv : string * pyval =>
                 match py_get (snd kv) (PStr "value") with Ok v => truthy v | Err _ => false end)
              opts))%list.
Proof.
  induction opts as [|[n o] r IH]; intros acc cfg Hnd Hfresh Hok; simpl in *.
  - injection Hok as <-. now rewrite app_nil_r.
  - inversion Hnd as [|? ? Hn Hnd']; subst.
    destruct (py_get o (PStr "value")) as [v|e]; [|discriminate].
    destruct (truthy v); [|apply IH; auto].
    destruct (py_getitem o (PStr "type")) as [ty|e]; [|discriminate].
    destruct (hashable ty); [|discriminate].
    destruct (converter_of cs ci cf ty) as [conv|]; [|discriminate].
    destruct (conv v) as [v'|e]; [|discriminate].
    simpl in Hok. rewrite dict_set_absent in Hok by auto.
    assert (Hfresh' : forall n', In n' (map fst r) ->
              dict_lookup (acc ++ [(PStr n, v')]) (PStr n') = None).
    { intros n' Hn'. rewrite dict_lookup_app, Hfresh by auto. simpl.
      rewrite (proj2 (String.eqb_neq n' n)); [reflexivity|]. intros ->. contradiction. }
    rewrite (IH _ _ Hnd' Hfresh' Hok), map_app. generalize (map fst acc). intros l.
    induction l as [|a l IHl]; simpl; [reflexivity|f_equal; exact IHl].
Qed.

(** X23: When get_config's option loop succeeds on options with distinct names, the keys of the resulting config are exactly the names of the options whose value is truthy, in order: options with a falsy value (0, false, empty string) are left out. *)
Theorem get_config_keeps_truthy_values cs ci cf opts cfg
  (Hnd : NoDup (map fst opts))
  (Hok : config_of_settings cs ci cf (strd opts) [] = SOk cfg) :
  map fst cfg =
  map (fun kv => PStr (fst kv))
    (filter (fun kv : string * pyval =>
               match py_get (snd kv) (PStr "value") with Ok v => truthy v | Err _ => false end)
            opts).
Proof.
  apply (config_of_settings_keys cs ci cf opts [] cfg Hnd); auto.
Qed.

(** X24: A boolean option with a truthy value is recorded as value == "true": a JSON true (PBool true) becomes False. *)
Theorem get_config_boolean_compares_to_string cs ci cf nm o rest acc v
  (Hv : dict_lookup o (PStr "value") = Some v) (Htv : truthy v = true)
  (Hty : dict_lookup o (PStr "type") = Some (PStr "boolean")) :
  config_of_settings cs ci cf ((PStr nm, PDict o) :: rest) acc
  = config_of_settings cs ci cf rest (dict_set acc (PStr nm) (PBool (py_eq v (PStr "true")))).
Proof.
  simpl. unfold dict_get, dict_getitem. simpl. rewrite Hv, Htv, Hty. reflexivity.
Qed.

(** X25: get_config raises AttributeError when the JSON has no "settings"; an option with a truthy value and no "type" raises KeyError('type'), and one whose type is not string, integer, number, boolean or attrs raises ValueError. *)
Theorem get_config_errors cs ci cf jr target model d nm o rest acc v :
  (jr ("config " ++ jun_app_name target) model = SOk (PDict d) ->
   dict_lookup d (PStr "settings") = None ->
   get_config cs ci cf jr target model = SErr (PyExc AttributeError)) /\
  (dict_lookup o (PStr "value") = Some v -> truthy v = true ->
   dict_lookup o (PStr "type") = None ->
   config_of_settings cs ci cf ((nm, PDict o) :: rest) acc
   = SErr (PyExc (KeyError (PStr "type")))) /\
  (forall ty, dict_lookup o (PStr "value") = Some v -> truthy v = true ->
   dict_lookup o (PStr "type") = Some (PStr ty) ->
   ~ In ty ["string"; "integer"; "number"; "boolean"; "attrs"] ->
   config_of_settings cs ci cf ((nm, PDict o) :: rest) acc = SErr (PyExc ValueError)).
Proof.
  split; [|split].
  - intros Hrun Hs. unfold get_config. now rewrite Hrun, Hs.
  - intros Hv Htv Hty. simpl. unfold dict_get, dict_getitem. simpl. now rewrite Hv, Htv, Hty.
  - intros ty Hv Htv Hty Hin. simpl. unfold dict_get, dict_getitem. simpl.
    rewrite Hv, Htv, Hty. simpl. unfold converter_of. rewrite !py_eq_str.
    destruct (String.eqb_spec ty "string"); [subst; simpl in Hin; tauto|].
    destruct (String.eqb_spec ty "integer"); [subst; simpl in Hin; tauto|].
    destruct (String.eqb_spec ty "number"); [subst; simpl in Hin; tauto|].
    destruct (String.eqb_spec ty "boolean"); [subst; simpl in Hin; tauto|].
    destruct (String.eqb_spec ty "attrs"); [subst; simpl in Hin; tauto|].
    reflexivity.
Qed.

(** X26: When no listed model has the requested short name, get_model raises InvalidTargetModelName with the name passed in (None when no name was given).  The requested name is the name given, or, when no name or an empty name is given, the current model. *)
Theorem get_model_unknown_name jr name d mn ms
  (Hrun : jr "models" None = SOk (PDict d))
  (Hmn : match name with
         | Some n => if String.eqb n "" then dict_lookup d (PStr "current-model") = Some mn
                     else mn = PStr n
         | None => dict_lookup d (PStr "current-model") = Some mn
         end)
  (Hms : dict_lookup d (PStr "models") = Some (PList ms))
  (Hnone : forall m, In m ms -> exists sn, py_getitem m (PStr "short-name") = Ok sn /\
             py_eq sn mn = false) :
  get_model jr name = SErr (InvalidTargetModelName (match name with Some n => PStr n | None => PNone end)).
Proof.
  unfold get_model. rewrite Hrun. cbv zeta.
  assert (Hsel : (if truthy (match name with Some n => PStr n | None => PNone end)
                  then Ok (match name with Some n => PStr n | None => PNone end)
                  else py_getitem (PDict d) (PStr "current-model")) = Ok mn).
  { destruct name as [n|]; simpl; unfold dict_getitem; simpl.
    - destruct (String.eqb n ""); simpl.
      + now rewrite Hmn.
      + now rewrite Hmn.
    - now rewrite Hmn. }
  rewrite Hsel. simpl. unfold dict_getitem. simpl. rewrite Hms. simpl.
  assert (Hf : find_model mn ms = Ok None).
  { clear Hsel Hms. revert Hnone. induction ms as [|m r IH]; intros Hnone; simpl; auto.
    destruct (Hnone m (or_introl eq_refl)) as [sn [-> Hne]]. rewrite Hne.
    apply IH. intros m' Hm'. apply Hnone. now right. }
  now rewrite Hf.
Qed.

(** ** Witnesses of the further properties *)

Lemma backend_getters_read_only_witness :
  In "relation_list" backend_getters /\
  fst (wrap_tool "_ModelBackend" "relation_list" None
         {| call_self := BackendSelf; call_args := [PInt 1]; call_kwargs := [] |}
         (sample_world true [] [])) = sample_world true [] [].
Proof.
  split; [simpl; tauto|].
  apply backend_getters_read_only. simpl; tauto.
Defined.

Lemma client_request_pull_read_only_witness :
  In "pull" ["_request"; "pull"] /\
  fst (wrap_tool "Client" "pull" None
         {| call_self := sample_client; call_args := [PStr "/etc/x"]; call_kwargs := [] |}
         (sample_world true [] [sample_container (PDict []) [] []]))
  = sample_world true [] [sample_container (PDict []) [] []].
Proof.
  split; [simpl; tauto|].
  apply client_request_pull_read_only. simpl; tauto.
Defined.

Lemma relation_set_then_get_witness :
  find_relation (PInt 1) (relations (state (scene (sample_world true [] [])))) = Ok (0, sample_relation) /\
  let w' := fst (wrap_tool "_ModelBackend" "relation_set" None
                   {| call_self := BackendSelf; call_args := [PInt 1; PStr "k"; PStr "v"; PBool true];
                      call_kwargs := [] |} (sample_world true [] [])) in
  exists d,
    wrap_tool "_ModelBackend" "relation_get" None
      {| call_self := BackendSelf; call_args := [PInt 1; PStr "local"; PBool true];
         call_kwargs := [] |} w'
    = (w', Ok (RVal (PDict d))) /\ dict_lookup d (PStr "k") = Some (PStr "v").
Proof.
  split; [reflexivity|].
  exact (relation_set_then_get (sample_world true [] []) None None BackendSelf BackendSelf [] []
           (PInt 1) "k" (PStr "v") (PBool true) 0 sample_relation
           eq_refl (fun _ => eq_refl)).
Defined.

Lemma status_set_then_get_witness :
  truthy (kw_get [(("app")%string, PBool true)] "app") = truthy (kw_get [("is_app", PBool true)] "is_app") /\
  let set := wrap_tool "_ModelBackend" "status_set" None
               {| call_self := BackendSelf; call_args := [PStr "active"; PStr "ready"];
                  call_kwargs := [("is_app", PBool true)] |} (sample_world true [] []) in
  snd set = Ok (RVal PNone) /\
  wrap_tool "_ModelBackend" "status_get" None
    {| call_self := BackendSelf; call_args := []; call_kwargs := [("app", PBool true)] |} (fst set)
  = (fst set, Ok (RVal (PDict [(PStr "status", PStr "active"); (PStr "message", PStr "ready")]))).
Proof.
  split; [reflexivity|].
  apply status_set_then_get. reflexivity.
Defined.

Lemma status_set_wrong_arity_breaks_get_witness :
  length [PStr "active"] <> 2 /\
  truthy (kw_get [] "app") = truthy (kw_get [] "is_app") /\
  let set := wrap_tool "_ModelBackend" "status_set" None
               {| call_self := BackendSelf; call_args := [PStr "active"]; call_kwargs := [] |}
               (sample_world true [] []) in
  snd set = Ok (RVal PNone) /\
  wrap_tool "_ModelBackend" "status_get" None
    {| call_self := BackendSelf; call_args := []; call_kwargs := [] |} (fst set)
  = (fst set, Err (StateError "getting" "_ModelBackend" "status_get" ValueError)).
Proof.
  split; [simpl; lia|]. split; [reflexivity|].
  apply status_set_wrong_arity_breaks_get; [simpl; lia|reflexivity].
Defined.

Lemma unknown_namespace_wrapped_witness :
  "Container" <> "_ModelBackend" /\ "Container" <> "Client" /\
  wrap_tool "Container" "pull" None
    {| call_self := sample_client; call_args := []; call_kwargs := [] |} (sample_world true [] [])
  = (sample_world true [] [],
     Err (StateError "getting" "Container" "pull" (QuestionNotImplementedError ["Container"]))).
Proof.
  split; [discriminate|]. split; [discriminate|].
  apply unknown_namespace_wrapped; discriminate.
Defined.

Lemma unimplemented_backend_tools_witness :
  wrap_tool "_ModelBackend" "action_get" None
    {| call_self := BackendSelf; call_args := []; call_kwargs := [] |} (sample_world true [] [])
  = (sample_world true [] [],
     Err (StateError "getting" "_ModelBackend" "action_get" (NotImplementedError "action_get"))) /\
  wrap_tool "_ModelBackend" "secret_set" None
    {| call_self := BackendSelf; call_args := []; call_kwargs := [] |} (sample_world true [] [])
  = (sample_world true [] [],
     Err (StateError "setting" "_ModelBackend" "secret_set" (NotImplementedError "secret_set"))).
Proof.
  split.
  - apply (proj1 (unimplemented_backend_tools "action_get" None
                    {| call_self := BackendSelf; call_args := []; call_kwargs := [] |}
                    (sample_world true [] []))). simpl; tauto.
  - apply (proj2 (unimplemented_backend_tools "secret_set" None
                    {| call_self := BackendSelf; call_args := []; call_kwargs := [] |}
                    (sample_world true [] []))). simpl; tauto.
Defined.

Lemma unknown_backend_tool_unwrapped_witness :
  ~ In "secret_ids" backend_getters /\
  ~ In "secret_ids" (["application_version_set"; "status_set"; "juju_log"; "relation_set"]
                     ++ backend_unimplemented_setters) /\
  wrap_tool "_ModelBackend" "secret_ids" None
    {| call_self := BackendSelf; call_args := []; call_kwargs := [] |} (sample_world true [] [])
  = (sample_world true [] [], Err (QuestionNotImplementedError ["_ModelBackend"; "secret_ids"])).
Proof.
  assert (H1 : ~ In "secret_ids" backend_getters)
    by (simpl; intros H; repeat destruct H as [H|H]; discriminate || exact H).
  assert (H2 : ~ In "secret_ids" (["application_version_set"; "status_set"; "juju_log"; "relation_set"]
                                  ++ backend_unimplemented_setters))
    by (simpl; intros H; repeat destruct H as [H|H]; discriminate || exact H).
  split; [exact H1|]. split; [exact H2|].
  apply unknown_backend_tool_unwrapped; assumption.
Defined.

Lemma unknown_relation_id_fails_witness :
  (forall r, In r (relations (state (scene (sample_world true [] [])))) ->
             py_eq (PInt (relation_id (meta r))) (PInt 7) = false) /\
  wrap_tool "_ModelBackend" "relation_list" None
    {| call_self := BackendSelf; call_args := [PInt 7]; call_kwargs := [] |} (sample_world true [] [])
  = (sample_world true [] [], Err (StateError "getting" "_ModelBackend" "relation_list" StopIteration)).
Proof.
  assert (H : forall r, In r (relations (state (scene (sample_world true [] [])))) ->
                        py_eq (PInt (relation_id (meta r))) (PInt 7) = false)
    by (simpl; intros r [<-|[]]; reflexivity).
  split; [exact H|].
  exact (proj1 (proj2 (unknown_relation_id_fails (sample_world true [] []) None BackendSelf []
                         (PInt 7) H)) []).
Defined.

Lemma config_get_state_config_first_witness :
  wrap_tool "_ModelBackend" "config_get" None
    {| call_self := BackendSelf; call_args := []; call_kwargs := [] |}
    (sample_world true [(PStr "port", PInt 80)] [])
  = (sample_world true [(PStr "port", PInt 80)] [], Ok (RVal (PDict [(PStr "port", PInt 80)]))) /\
  wrap_tool "_ModelBackend" "config_get" None
    {| call_self := BackendSelf; call_args := []; call_kwargs := [] |} (sample_world true [] [])
  = (sample_world true [] [], Err (StateError "getting" "_ModelBackend" "config_get" AttributeError)).
Proof.
  split.
  - apply (proj1 (config_get_state_config_first (sample_world true [(PStr "port", PInt 80)] [])
                    None BackendSelf [] [])); [discriminate|reflexivity].
  - apply (proj2 (config_get_state_config_first (sample_world true [] []) None BackendSelf [] []));
      reflexivity.
Defined.

Lemma relation_get_remote_unit_witness :
  find_relation (PInt 1) (relations (state (scene (sample_world true [] [])))) = Ok (0, sample_relation) /\
  wrap_tool "_ModelBackend" "relation_get" None
    {| call_self := BackendSelf; call_args := [PInt 1; PStr ("remote" ++ "/" ++ str_of_Z 0); PBool false];
       call_kwargs := [] |} (sample_world true [] [])
  = (sample_world true [] [], Ok (RVal (PDict []))).
Proof.
  split; [reflexivity|].
  apply (relation_get_remote_unit (sample_world true [] []) None BackendSelf [] (PInt 1) (PBool false)
           0 sample_relation "remote" 0); [reflexivity|reflexivity|lia|discriminate].
Defined.


Lemma services_result_bounded_witness :
  snd (wrap_tool "Client" "_request" None
         {| call_self := sample_client;
            call_args := [PStr "GET"; PStr "/v1/services"; PDict [(PStr "names", PStr "a,c")]];
            call_kwargs := [] |}
         (sample_world true [] [sample_container (PDict []) [service_layer [("a", PInt 1)]] []]))
  = Ok (RVal (PDict [(PStr "result", PList [PInt 1])])) /\
  (length [PInt 1] <= length (py_split ","%char "a,c"))%nat.
Proof.
  split; [vm_compute; reflexivity|].
  apply (services_result_bounded
           (sample_world true [] [sample_container (PDict []) [service_layer [("a", PInt 1)]] []])
           None "/charm/containers/workload/pebble.socket" [] "a,c").
  vm_compute; reflexivity.
Defined.

Lemma exec_mock_lookup_witness :
  client_container (sample_world true [] [sample_container (PDict []) [] failing_mock])
    "/charm/containers/workload/pebble.socket" = Some (0, sample_container (PDict []) [] failing_mock) /\
  hashable (PTuple [PStr "true"]) = true /\
  exists p w', wrap_tool "Client" "exec" None
                 {| call_self := sample_client; call_args := [PList [PStr "true"]]; call_kwargs := [] |}
                 (sample_world true [] [sample_container (PDict []) [] failing_mock])
               = (w', Ok (RProc p)) /\
               command p = [PStr "true"] /\
               out p = {| return_code := 0; stdout := "out"; stderr := "err" |} /\ waited p = false.
Proof.
  split; [reflexivity|]. split; [reflexivity|].
  exact (proj2 (exec_mock_lookup (sample_world true [] [sample_container (PDict []) [] failing_mock])
                  None "/charm/containers/workload/pebble.socket" [] 0
                  (sample_container (PDict []) [] failing_mock) [PStr "true"] eq_refl eq_refl)
           1 (PTuple [PStr "true"], {| return_code := 0; stdout := "out"; stderr := "err" |})
           eq_refl).
Defined.

Lemma juju_unit_name_roundtrip_witness :
  "prometheus" <> "" /\ (0 <= 12)%Z /\
  juju_unit_name ("prometheus" ++ "/" ++ str_of_Z 12)
  = SOk {| jun_unit_name := "prometheus" ++ "/" ++ str_of_Z 12; jun_app_name := "prometheus";
           jun_unit_id := 12; jun_normalized := "prometheus" ++ "-" ++ str_of_Z 12 |}.
Proof.
  split; [discriminate|]. split; [lia|].
  apply juju_unit_name_roundtrip; [discriminate|lia].
Defined.

Lemma juju_unit_name_rejects_witness :
  juju_unit_name "prometheus" = SErr (InvalidTargetUnitName "prometheus") /\
  juju_unit_name ("" ++ "/" ++ "0") = SErr (InvalidTargetUnitName ("" ++ "/" ++ "0")) /\
  juju_unit_name ("prometheus" ++ "/" ++ "x") = SErr (PyExc ValueError).
Proof.
  destruct juju_unit_name_rejects as [H1 [H2 H3]].
  split; [apply H1; repeat constructor|].
  split; [apply H2; [repeat constructor|now left]|].
  apply H3; [repeat constructor|discriminate|discriminate|reflexivity].
Defined.

Lemma clean_drops_juju_keys_witness :
  let kvs := [("egress-subnets", PStr "10.0.0.0/24"); ("foo", PStr "bar");
              ("ingress-address", PStr "10.0.0.1"); ("private-address", PStr "10.0.0.1")] in
  Permutation ["private-address"; "egress-subnets"; "ingress-address"] JUJU_RELATION_KEYS /\
  NoDup (map fst kvs) /\
  clean false ["private-address"; "egress-subnets"; "ingress-address"] (PDict (strd kvs))
  = SOk (PDict (strd (filter (keep_unlisted JUJU_RELATION_KEYS) kvs))).
Proof.
  intros kvs.
  assert (Hp : Permutation ["private-address"; "egress-subnets"; "ingress-address"] JUJU_RELATION_KEYS)
    by (unfold JUJU_RELATION_KEYS; apply perm_trans with
          (l' := ["egress-subnets"; "private-address"; "ingress-address"]);
        [apply perm_swap|apply perm_skip, perm_swap]).
  assert (Hn : NoDup (map fst kvs))
    by (simpl; repeat (constructor; [simpl; intros H; repeat destruct H as [H|H];
                                     try discriminate; exact H|]); constructor).
  split; [exact Hp|]. split; [exact Hn|].
  apply (proj1 (clean_drops_juju_keys _ kvs Hp Hn)).
  apply Forall_forall; intros k Hk; simpl in Hk.
  repeat destruct Hk as [<-|Hk]; simpl; auto 6; contradiction.
Defined.

Lemma get_interface_provides_then_requires_witness :
  let md := PDict [(PStr "provides", PDict [(PStr "metrics", PDict [(PStr "interface", PStr "prom")])]);
                   (PStr "peers", PDict [(PStr "db", PDict [(PStr "interface", PStr "peer")])])] in
  role_items md "provides" = Ok [(PStr "metrics", PDict [(PStr "interface", PStr "prom")])] /\
  role_items md "requires" = Ok [] /\
  get_interface_from_metadata "db" md =
  match find_endpoint "db" ([(PStr "metrics", PDict [(PStr "interface", PStr "prom")])] ++ []) with
  | Some ep_meta =>
      match py_getitem ep_meta (PStr "interface") with Ok v => Ok (Some v) | Err e => Err e end
  | None => Ok None
  end.
Proof.
  intros md. split; [reflexivity|]. split; [reflexivity|].
  apply get_interface_provides_then_requires; reflexivity.
Defined.

Lemma get_mounts_without_mounts_witness :
  match dict_lookup [(PStr "resource", PStr "img")] (PStr "mounts") with
  | None | Some PNone => True | _ => False end /\
  get_mounts (fun _ => "/tmp/snap") (fun _ _ => SOk "") (fun _ _ => SOk tt)
    (PDict [(PStr "resource", PStr "img")]) None = SErr (PyExc TypeError).
Proof.
  split; [exact I|].
  exact (get_mounts_without_mounts (fun _ => "/tmp/snap") (fun _ _ => SOk "") (fun _ _ => SOk tt)
           [(PStr "resource", PStr "img")] None I).
Defined.

Lemma get_mounts_last_prefix_witness :
  let mts := [PDict [(PStr "storage", PStr "data"); (PStr "location", PStr "/var")];
              PDict [(PStr "storage", PStr "logs"); (PStr "location", PStr "/var/log")]] in
  mount_spec_of mts [] = Ok (map (fun '(n, l) => (n, PStr l))
                                 [(PStr "data", "/var"); (PStr "logs", "/var/log")]) /\
  get_mounts (fun _ => "/tmp/snap0") (fun _ _ => SOk "/tmp/snap0/x")
    (fun _ _ => SErr (PyExc (RuntimeError "pull failed")))
    (PDict [(PStr "mounts", PList mts)]) (Some ["/var/log/x"])
  = SOk [(PStr "logs", {| mount_src := PStr "/var/log"; mount_location := "/tmp/snap0" |})].
Proof.
  intros mts. split; [reflexivity|].
  apply (get_mounts_last_prefix (fun _ => "/tmp/snap0") (fun _ _ => SOk "/tmp/snap0/x")
           (fun _ _ => SErr (PyExc (RuntimeError "pull failed")))
           [(PStr "mounts", PList mts)] mts [(PStr "data", "/var"); (PStr "logs", "/var/log")]
           "/var/log/x").
  - reflexivity.
  - reflexivity.
  - intros m. exists "/tmp/snap0/x". reflexivity.
  - intros fp. reflexivity.
Defined.

Lemma get_config_keeps_truthy_values_witness :
  let opts := [("name", PDict [(PStr "type", PStr "string"); (PStr "value", PStr "")]);
               ("debug", PDict [(PStr "type", PStr "boolean"); (PStr "value", PStr "true")])] in
  NoDup (map fst opts) /\
  config_of_settings (fun x => Ok x) (fun x => Ok x) (fun x => Ok x) (strd opts) []
  = SOk [(PStr "debug", PBool true)] /\
  map fst [(PStr "debug", PBool true)] =
  map (fun kv => PStr (fst kv))
    (filter (fun kv : string * pyval =>
               match py_get (snd kv) (PStr "value") with Ok v => truthy v | Err _ => false end)
            opts).
Proof.
  intros opts.
  assert (Hn : NoDup (map fst opts))
    by (simpl; constructor; [simpl; intros [H|[]]; discriminate|constructor; [intros []|constructor]]).
  split; [exact Hn|]. split; [reflexivity|].
  apply (get_config_keeps_truthy_values (fun x => Ok x) (fun x => Ok x) (fun x => Ok x) opts); [exact Hn|].
  reflexivity.
Defined.

Lemma get_config_boolean_compares_to_string_witness :
  config_of_settings (fun x => Ok x) (fun x => Ok x) (fun x => Ok x)
    [(PStr "debug", PDict [(PStr "type", PStr "boolean"); (PStr "value", PBool true)])] []
  = config_of_settings (fun x => Ok x) (fun x => Ok x) (fun x => Ok x) []
      (dict_set [] (PStr "debug") (PBool (py_eq (PBool true) (PStr "true")))) /\
  py_eq (PBool true) (PStr "true") = false.
Proof.
  split; [|reflexivity].
  apply get_config_boolean_compares_to_string; reflexivity.
Defined.

Lemma get_config_errors_witness :
  get_config (fun x => Ok x) (fun x => Ok x) (fun x => Ok x) (fun _ _ => SOk (PDict []))
    {| jun_unit_name := "a/0"; jun_app_name := "a"; jun_unit_id := 0; jun_normalized := "a-0" |}
    None = SErr (PyExc AttributeError) /\
  config_of_settings (fun x => Ok x) (fun x => Ok x) (fun x => Ok x)
    [(PStr "port", PDict [(PStr "value", PInt 80)])] [] = SErr (PyExc (KeyError (PStr "type"))) /\
  config_of_settings (fun x => Ok x) (fun x => Ok x) (fun x => Ok x)
    [(PStr "port", PDict [(PStr "type", PStr "int"); (PStr "value", PInt 80)])] []
  = SErr (PyExc ValueError).
Proof.
  destruct (get_config_errors (fun x => Ok x) (fun x => Ok x) (fun x => Ok x) (fun _ _ => SOk (PDict []))
              {| jun_unit_name := "a/0"; jun_app_name := "a"; jun_unit_id := 0; jun_normalized := "a-0" |}
              None [] (PStr "port") [(PStr "value", PInt 80)] [] [] (PInt 80)) as [H1 [H2 _]].
  destruct (get_config_errors (fun x => Ok x) (fun x => Ok x) (fun x => Ok x) (fun _ _ => SOk (PDict []))
              {| jun_unit_name := "a/0"; jun_app_name := "a"; jun_unit_id := 0; jun_normalized := "a-0" |}
              None [] (PStr "port") [(PStr "type", PStr "int"); (PStr "value", PInt 80)] [] []
              (PInt 80)) as [_ [_ H3]].
  split; [apply H1; reflexivity|]. split; [apply H2; reflexivity|].
  apply (H3 "int"); try reflexivity.
  simpl; intros H; repeat destruct H as [H|H]; try discriminate; exact H.
Defined.

Lemma get_model_unknown_name_witness :
  let ms := [PDict [(PStr "short-name", PStr "prod"); (PStr "model-uuid", PStr "u");
                    (PStr "type", PStr "caas")]] in
  let d := [(PStr "current-model", PStr "dev"); (PStr "models", PList ms)] in
  let d' := [(PStr "models", PList ms)] in
  get_model (fun _ _ => SOk (PDict d)) None = SErr (InvalidTargetModelName PNone) /\
  get_model (fun _ _ => SOk (PDict d')) (Some "staging")
  = SErr (InvalidTargetModelName (PStr "staging")).
Proof.
  intros ms d d'. split.
  - apply (get_model_unknown_name (fun _ _ => SOk (PDict d)) None d (PStr "dev") ms);
      [reflexivity|reflexivity|reflexivity|].
    intros m [<-|[]]. eexists; split; reflexivity.
  - apply (get_model_unknown_name (fun _ _ => SOk (PDict d')) (Some "staging") d'
             (PStr "staging") ms); [reflexivity|reflexivity|reflexivity|].
    intros m [<-|[]]. eexists; split; reflexivity.
Defined.
